(** * The chess game session of [chess_engine.py]

    A shallow embedding of the [ChessGame] class and of the two request
    handlers [start] and [move] that drive it.  The session delegates the
    rules of chess to the [chess] package and the choice of the engine's
    moves to a [Stockfish] process; both are collaborators of the program
    and enter the development as interfaces ([Rules], [Selector]).  The
    session itself -- flags, board, dispatch, messages, the exception that
    can escape -- is modelled line by line. *)

From Stdlib Require Import Bool Arith NArith ZArith List String Ascii Lia.
From Stdlib Require Import DecimalString.
Import ListNotations.
Local Open Scope string_scope.

(** ** Python text

    A [str] is modelled by a [string] whose characters are the code points
    below 256.  [isspace], [strip] and [lower] follow [str.isspace],
    [str.strip] and [str.lower] on those code points. *)

Module PyStr.

Definition isspace (c : ascii) : bool :=
  let n := N_of_ascii c in
  ((9 <=? n) && (n <=? 13) || (28 <=? n) && (n <=? 32)
   || (n =? 133) || (n =? 160))%N.

Definition lower_char (c : ascii) : ascii :=
  let n := N_of_ascii c in
  if ((65 <=? n) && (n <=? 90))%N then ascii_of_N (n + 32)
  else if ((192 <=? n) && (n <=? 222) && negb (n =? 215))%N
       then ascii_of_N (n + 32)
       else c.

Fixpoint lower (s : string) : string :=
  match s with
  | EmptyString => EmptyString
  | String c s' => String (lower_char c) (lower s')
  end.

Fixpoint lstrip (s : string) : string :=
  match s with
  | EmptyString => EmptyString
  | String c s' => if isspace c then lstrip s' else s
  end.

Fixpoint rstrip (s : string) : string :=
  match s with
  | EmptyString => EmptyString
  | String c s' =>
      match rstrip s' with
      | EmptyString => if isspace c then EmptyString else String c EmptyString
      | r => String c r
      end
  end.

Definition strip (s : string) : string := rstrip (lstrip s).

(** [x in l] for a list of strings. *)
Definition in_list (x : string) (l : list string) : bool :=
  existsb (String.eqb x) l.

(** Truth value of an [Optional[str]]: [None] and the empty string are
    false. *)
Definition truthy (o : option string) : bool :=
  match o with
  | Some (String _ _) => true
  | _ => false
  end.

(** [f"{o}"] for an [Optional[str]]. *)
Definition format (o : option string) : string :=
  match o with
  | Some s => s
  | None => "None"
  end.

Definition newline : string := String (ascii_of_nat 10) EmptyString.

(** Two texts are equal up to case when they lower-case to the same text;
    a request names a colour when, trimmed, it equals it up to case. *)
Definition ci_equal (a b : string) : Prop := lower a = lower b.

Definition names_color (input color : string) : Prop :=
  ci_equal (strip input) color.

End PyStr.
Import PyStr.

(** ** Collaborators *)

Definition WHITE : bool := true.
Definition BLACK : bool := false.

(** The part of the [chess] package the session calls.  [from_uci] is
    [chess.Move.from_uci], with [None] for a raised [InvalidMoveError];
    [legal b m] is [m in b.legal_moves]; [push] returns the board after
    [b.push(m)]; [initial] is [chess.Board()]. *)
Class Rules := {
  Board : Type;
  Move : Type;
  initial : Board;
  from_uci : string -> option Move;
  legal : Board -> Move -> bool;
  push : Board -> Move -> Board;
  is_checkmate : Board -> bool;
  is_stalemate : Board -> bool;
  is_insufficient_material : Board -> bool;
  fen : Board -> string;
  turn : Board -> bool
}.

(** The [Stockfish] object: a process with a state of its own.
    [get_best_move_time] answers [None] or a text, as its signature says;
    an engine process that dies is not modelled. *)
Class Selector := {
  Stockfish : Type;
  set_fen_position : string -> Stockfish -> Stockfish;
  get_best_move_time : N -> Stockfish -> option string * Stockfish
}.

(** ** Exceptions and the method monad *)

Inductive Exn : Type :=
| AttributeError     (* an attribute of [None] was read *)
| InvalidMoveError.  (* raised by [chess.Move.from_uci] *)

Inductive Result (S A : Type) : Type :=
| Returned (a : A) (s : S)
| Raised (e : Exn) (s : S).
Arguments Returned {S A} a s.
Arguments Raised {S A} e s.

Definition state_of {S A} (r : Result S A) : S :=
  match r with
  | Returned _ s => s
  | Raised _ s => s
  end.

(** What the caller sees: the returned value or the exception. *)
Definition answer {S A} (r : Result S A) : A + Exn :=
  match r with
  | Returned a _ => inl a
  | Raised e _ => inr e
  end.

Definition map_state {S A} (f : S -> S) (r : Result S A) : Result S A :=
  match r with
  | Returned a s => Returned a (f s)
  | Raised e s => Raised e (f s)
  end.

Definition M (S A : Type) : Type := S -> Result S A.

Definition ret {S A} (a : A) : M S A := fun s => Returned a s.

Definition raise {S A} (e : Exn) : M S A := fun s => Raised e s.

Definition bind {S A B} (m : M S A) (k : A -> M S B) : M S B :=
  fun s =>
    match m s with
    | Returned a s' => k a s'
    | Raised e s' => Raised e s'
    end.

Definition gets {S A} (f : S -> A) : M S A := fun s => Returned (f s) s.

Definition modify {S} (f : S -> S) : M S unit := fun s => Returned tt (f s).

Declare Scope py_scope.
Delimit Scope py_scope with py.
Notation "x <- m ;; k" := (bind m (fun x => k))
  (at level 61, m at next level, right associativity) : py_scope.
Notation "m ;; k" := (bind m (fun _ => k))
  (at level 61, right associativity) : py_scope.
Local Open Scope py_scope.

(** ** The session *)

Section Session.

Context {R : Rules} {E : Selector}.

Record ChessGame : Type := {
  board : option Board;
  user_color : option bool;
  game_started : bool;
  waiting_for_color : bool;
  engine : Stockfish
}.

Definition Py (A : Type) : Type := M ChessGame A.

(** [game = ChessGame()] for an engine that was found and launched. *)
Definition __init__ (e : Stockfish) : ChessGame :=
  {| board := None; user_color := None; game_started := false;
     waiting_for_color := false; engine := e |}.

(** Attribute writes. *)
Definition with_board (b : option Board) (g : ChessGame) : ChessGame :=
  {| board := b; user_color := user_color g;
     game_started := game_started g;
     waiting_for_color := waiting_for_color g; engine := engine g |}.

Definition with_user_color (c : option bool) (g : ChessGame) : ChessGame :=
  {| board := board g; user_color := c;
     game_started := game_started g;
     waiting_for_color := waiting_for_color g; engine := engine g |}.

Definition with_game_started (v : bool) (g : ChessGame) : ChessGame :=
  {| board := board g; user_color := user_color g;
     game_started := v;
     waiting_for_color := waiting_for_color g; engine := engine g |}.

Definition with_waiting_for_color (v : bool) (g : ChessGame) : ChessGame :=
  {| board := board g; user_color := user_color g;
     game_started := game_started g;
     waiting_for_color := v; engine := engine g |}.

Definition with_engine (e : Stockfish) (g : ChessGame) : ChessGame :=
  {| board := board g; user_color := user_color g;
     game_started := game_started g;
     waiting_for_color := waiting_for_color g; engine := e |}.

Definition set_board (b : option Board) : Py unit := modify (with_board b).

Definition set_user_color (c : option bool) : Py unit :=
  modify (with_user_color c).

Definition set_game_started (v : bool) : Py unit :=
  modify (with_game_started v).

Definition set_waiting_for_color (v : bool) : Py unit :=
  modify (with_waiting_for_color v).

Definition set_engine (e : Stockfish) : Py unit := modify (with_engine e).

(** [self.board.<attribute>]: reading through [None] raises. *)
Definition the_board : Py Board :=
  fun g =>
    match board g with
    | Some b => Returned b g
    | None => Raised AttributeError g
    end.

(** [self.board.push(move)]. *)
Definition board_push (m : Move) : Py unit :=
  b <- the_board ;; set_board (Some (push b m)).

(** [self.engine.set_fen_position(f)]. *)
Definition engine_set_fen_position (f : string) : Py unit :=
  e <- gets engine ;; set_engine (set_fen_position f e).

(** [self.engine.get_best_move_time(t)]. *)
Definition engine_get_best_move_time (t : N) : Py (option string) :=
  e <- gets engine ;;
  let r := get_best_move_time t e in
  set_engine (snd r) ;; ret (fst r).

(** [chess.Move.from_uci(s)] outside a [try]. *)
Definition Move_from_uci (s : string) : Py Move :=
  match from_uci s with
  | Some m => ret m
  | None => raise InvalidMoveError
  end.

Definition start_game : Py string :=
  set_board (Some initial) ;;
  set_game_started false ;;
  set_waiting_for_color true ;;
  ret "Game started. Choose engine color: black or white?".

Definition _get_engine_move : Py (option string) :=
  b <- the_board ;;
  engine_set_fen_position (fen b) ;;
  best_move <- engine_get_best_move_time 2000 ;;
  if truthy best_move then
    m <- Move_from_uci (format best_move) ;;
    b <- the_board ;;
    if legal b m then
      board_push m ;;
      ret best_move
    else ret None
  else ret None.

Definition set_color (color_input : string) : Py string :=
  let color_input := lower (strip color_input) in
  if negb (in_list color_input ["black"; "white"]) then
    ret "Invalid color. Choose 'black' or 'white'."
  else
    let engine_color := if String.eqb color_input "white" then WHITE else BLACK in
    set_user_color (Some (negb engine_color)) ;;
    set_game_started true ;;
    set_waiting_for_color false ;;
    if Bool.eqb engine_color WHITE then
      engine_move <- _get_engine_move ;;
      if truthy engine_move then
        ret ("You are white. First move: " ++ format engine_move)
      else ret "Engine error"
    else ret "Engine is black. You are white. Make your move.".

Definition make_move (move_input : string) : Py string :=
  let move_input := lower (strip move_input) in
  match from_uci move_input with
  | None => ret "Illegal move"
  | Some m =>
      b <- the_board ;;
      if negb (legal b m) then ret "Illegal move"
      else
        board_push m ;;
        b <- the_board ;;
        if is_checkmate b then ret "Checkmate, you win!"
        else
          b <- the_board ;;
          if is_stalemate b || is_insufficient_material b then ret "Draw"
          else
            engine_move <- _get_engine_move ;;
            if negb (truthy engine_move) then ret "Engine error"
            else
              b <- the_board ;;
              if is_checkmate b then
                ret (format engine_move ++ newline ++ "Checkmate, I win!")
              else
                b <- the_board ;;
                if is_stalemate b || is_insufficient_material b then
                  ret (format engine_move ++ newline ++ "Draw")
                else ret (format engine_move)
  end.

(** The two routes.  A returned text is answered with status 200; an
    exception that escapes a handler is the server's error answer. *)
Definition start : Py string := start_game.

Definition move (body : string) : Py string :=
  let move_input := strip body in
  w <- gets waiting_for_color ;;
  if w then set_color move_input
  else
    s <- gets game_started ;;
    if negb s then ret "No game in progress. Start a game with /start"
    else make_move move_input.

(** ** Phases

    The session stores two flags; [move] dispatches on them and on nothing
    else.  They encode three of the four phases of the specification. *)
Inductive Phase : Type :=
| NotStarted
| AwaitingColorChoice
| InProgress
| Finished.

Definition phase (g : ChessGame) : Phase :=
  if waiting_for_color g then AwaitingColorChoice
  else if game_started g then InProgress
  else NotStarted.

(** A position that ends the game: what [make_move] tests after a push. *)
Definition terminal (b : Board) : bool :=
  is_checkmate b || is_stalemate b || is_insufficient_material b.

(** What the engine in state [e] answers when asked about the board [b],
    and the state it is left in: the two calls of [_get_engine_move]. *)
Definition consult (b : Board) (e : Stockfish) : option string * Stockfish :=
  get_best_move_time 2000 (set_fen_position (fen b) e).

(** The engine "fails to produce a move" when it answers nothing, or a
    move that is not legal on the board it was asked about. *)
Definition engine_fails (b : Board) (e : Stockfish) : Prop :=
  truthy (fst (consult b e)) = false
  \/ exists s m, fst (consult b e) = Some s /\ s <> ""
                 /\ from_uci s = Some m /\ legal b m = false.

(** The session once the engine was given the colour [c]: the three
    attribute writes of [set_color]. *)
Definition chosen (c : bool) (g : ChessGame) : ChessGame :=
  with_waiting_for_color false
    (with_game_started true (with_user_color (Some (negb c)) g)).

(** Requests, and the session after a list of them (a request whose
    handler raises leaves the session as the handler left it). *)
Inductive Request : Type :=
| POST_start
| POST_move (body : string).

Definition handle (r : Request) : Py string :=
  match r with
  | POST_start => start
  | POST_move body => move body
  end.

Definition after (rs : list Request) (g : ChessGame) : ChessGame :=
  fold_left (fun g r => state_of (handle r g)) rs g.

End Session.

(** ** Standard chess: an instance of [Rules]

    The rules of chess as the [chess] package decides them for a standard
    game: squares are numbered 0 (a1) to 63 (h8), a move is legal when it
    is pseudo-legal and does not leave the mover's king attacked.  The
    instance lets the session run on real games. *)

Module Chess.

Local Open Scope nat_scope.

Inductive PieceType : Type := Pawn | Knight | Bishop | Rook | Queen | King.

Record Piece : Type := { piece_type : PieceType; color : bool }.

Record Move : Type := {
  from_square : nat;
  to_square : nat;
  promotion : option PieceType;
  drop : option PieceType
}.

Record Board : Type := {
  pieces : list (option Piece);
  turn : bool;
  castling_rights : list nat;
  ep_square : option nat;
  halfmove_clock : nat;
  fullmove_number : nat
}.

Definition ptype_eqb (a b : PieceType) : bool :=
  match a, b with
  | Pawn, Pawn | Knight, Knight | Bishop, Bishop
  | Rook, Rook | Queen, Queen | King, King => true
  | _, _ => false
  end.

Definition opt_ptype_eqb (a b : option PieceType) : bool :=
  match a, b with
  | Some x, Some y => ptype_eqb x y
  | None, None => true
  | _, _ => false
  end.

Definition move_eqb (a b : Move) : bool :=
  (from_square a =? from_square b) && (to_square a =? to_square b)
  && opt_ptype_eqb (promotion a) (promotion b)
  && opt_ptype_eqb (drop a) (drop b).

Definition square_file (sq : nat) : Z := Z.of_nat (sq mod 8).
Definition square_rank (sq : nat) : Z := Z.of_nat (sq / 8).

Definition on_board (f r : Z) : bool :=
  ((0 <=? f) && (f <? 8) && (0 <=? r) && (r <? 8))%Z.

Definition square (f r : Z) : nat := Z.to_nat (r * 8 + f).

Definition A1 : nat := 0.
Definition C1 : nat := 2.
Definition D1 : nat := 3.
Definition E1 : nat := 4.
Definition F1 : nat := 5.
Definition G1 : nat := 6.
Definition H1 : nat := 7.
Definition A8 : nat := 56.
Definition C8 : nat := 58.
Definition D8 : nat := 59.
Definition E8 : nat := 60.
Definition F8 : nat := 61.
Definition G8 : nat := 62.
Definition H8 : nat := 63.

Definition SQUARES : list nat := seq 0 64.

(** [any(f(x) for x in l)]: stops at the first hit. *)
Fixpoint any {A} (f : A -> bool) (l : list A) : bool :=
  match l with
  | [] => false
  | x :: t => if f x then true else any f t
  end.

(** *** Coordinate notation *)

Definition parse_square (f r : ascii) : option nat :=
  let fn := nat_of_ascii f in
  let rn := nat_of_ascii r in
  if (97 <=? fn) && (fn <=? 104) && (49 <=? rn) && (rn <=? 56)
  then Some ((rn - 49) * 8 + (fn - 97))
  else None.

Definition parse_piece (c : ascii) : option PieceType :=
  match c with
  | "p"%char => Some Pawn
  | "n"%char => Some Knight
  | "b"%char => Some Bishop
  | "r"%char => Some Rook
  | "q"%char => Some Queen
  | "k"%char => Some King
  | _ => None
  end.

Definition null : Move :=
  {| from_square := 0; to_square := 0; promotion := None; drop := None |}.

Definition plain_move (f t : nat) (p : option PieceType) : Move :=
  {| from_square := f; to_square := t; promotion := p; drop := None |}.

Definition parse_from_to (f1 r1 f2 r2 : ascii) (p : option PieceType)
  : option Move :=
  match parse_square f1 r1, parse_square f2 r2 with
  | Some f, Some t => if f =? t then None else Some (plain_move f t p)
  | _, _ => None
  end.

(** [chess.Move.from_uci]; [None] stands for [InvalidMoveError]. *)
Definition from_uci (uci : string) : option Move :=
  if String.eqb uci "0000" then Some null
  else
    match list_ascii_of_string uci with
    | [a; b; c; d] =>
        if Ascii.eqb b "@" then
          match parse_piece (lower_char a), parse_square c d with
          | Some pt, Some sq =>
              Some {| from_square := sq; to_square := sq;
                      promotion := None; drop := Some pt |}
          | _, _ => None
          end
        else parse_from_to a b c d None
    | [a; b; c; d; e] =>
        match parse_piece e with
        | Some pt => parse_from_to a b c d (Some pt)
        | None => None
        end
    | _ => None
    end.

(** *** The board *)

Definition piece_at (b : Board) (sq : nat) : option Piece :=
  nth sq (pieces b) None.

Fixpoint set_nth {A} (l : list A) (n : nat) (x : A) : list A :=
  match l, n with
  | [], _ => []
  | _ :: t, 0 => x :: t
  | h :: t, S k => h :: set_nth t k x
  end.

Definition is_piece (o : option Piece) (pt : PieceType) (c : bool) : bool :=
  match o with
  | Some p => ptype_eqb (piece_type p) pt && Bool.eqb (color p) c
  | None => false
  end.

Definition has_color (o : option Piece) (c : bool) : bool :=
  match o with
  | Some p => Bool.eqb (color p) c
  | None => false
  end.

Definition occupied (b : Board) (sq : nat) : bool :=
  match piece_at b sq with Some _ => true | None => false end.

Definition back_rank_pieces : list PieceType :=
  [Rook; Knight; Bishop; Queen; King; Bishop; Knight; Rook].

Definition initial : Board :=
  {| pieces :=
       map (fun t => Some {| piece_type := t; color := WHITE |}) back_rank_pieces
       ++ repeat (Some {| piece_type := Pawn; color := WHITE |}) 8
       ++ repeat None 32
       ++ repeat (Some {| piece_type := Pawn; color := BLACK |}) 8
       ++ map (fun t => Some {| piece_type := t; color := BLACK |}) back_rank_pieces;
     turn := WHITE;
     castling_rights := [A1; H1; A8; H8];
     ep_square := None;
     halfmove_clock := 0;
     fullmove_number := 1 |}.

(** *** Attacks *)

Definition rook_dirs : list (Z * Z) := [(1, 0); (-1, 0); (0, 1); (0, -1)]%Z.
Definition bishop_dirs : list (Z * Z) := [(1, 1); (1, -1); (-1, 1); (-1, -1)]%Z.

(** Walking from [(f, r)] along [(df, dr)], the target is met before any
    occupied square and before the edge. *)
Fixpoint ray_reaches (occ : nat -> bool) (fuel : nat)
         (f r df dr tf tr : Z) : bool :=
  match fuel with
  | 0 => false
  | S k =>
      let f' := (f + df)%Z in
      let r' := (r + dr)%Z in
      if negb (on_board f' r') then false
      else if ((f' =? tf) && (r' =? tr))%Z then true
      else if occ (square f' r') then false
      else ray_reaches occ k f' r' df dr tf tr
  end.

Definition slides (occ : nat -> bool) (dirs : list (Z * Z))
           (from to : nat) : bool :=
  any (fun d => ray_reaches occ 7 (square_file from) (square_rank from)
                      (fst d) (snd d) (square_file to) (square_rank to))
          dirs.

(** The piece [p] standing on [from] attacks [to], given the occupancy. *)
Definition attacks (occ : nat -> bool) (p : Piece) (from to : nat) : bool :=
  let df := Z.abs (square_file to - square_file from) in
  let dr := Z.abs (square_rank to - square_rank from) in
  match piece_type p with
  | Pawn =>
      ((df =? 1) && (square_rank to =? square_rank from
                                      + (if color p then 1 else -1)))%Z
  | Knight => ((df =? 1) && (dr =? 2) || (df =? 2) && (dr =? 1))%Z
  | King => ((Z.max df dr) =? 1)%Z
  | Bishop => slides occ bishop_dirs from to
  | Rook => slides occ rook_dirs from to
  | Queen => slides occ (rook_dirs ++ bishop_dirs) from to
  end.

Definition attacked_by (b : Board) (occ : nat -> bool) (c : bool)
           (sq : nat) : bool :=
  any (fun s => match piece_at b s with
                | Some p => if Bool.eqb (color p) c then attacks occ p s sq
                            else false
                | None => false
                end) SQUARES.

Definition king (b : Board) (c : bool) : option nat :=
  find (fun s => is_piece (piece_at b s) King c) (rev SQUARES).

Definition is_check (b : Board) : bool :=
  match king b (turn b) with
  | Some k => attacked_by b (occupied b) (negb (turn b)) k
  | None => false
  end.

(** *** Castling *)

Definition back_rank (c : bool) : Z := if c then 0%Z else 7%Z.

Definition king_home (c : bool) : nat := if c then E1 else E8.

(** [clean_castling_rights]: a right counts when its rook still stands on
    its corner and the king on its home square. *)
Definition has_right (b : Board) (rook_sq : nat) : bool :=
  existsb (Nat.eqb rook_sq) (castling_rights b)
  && (let c := (square_rank rook_sq =? 0)%Z in
      existsb (Nat.eqb rook_sq) [A1; H1; A8; H8]
      && is_piece (piece_at b rook_sq) Rook c
      && is_piece (piece_at b (king_home c)) King c).

Definition clean_castling_rights (b : Board) : list nat :=
  filter (has_right b) (castling_rights b).

(** A king move written king-takes-rook is read as the castling move. *)
Definition _from_chess960 (b : Board) (m : Move) : Move :=
  let f := from_square m in
  let t := to_square m in
  let king_on s := match piece_at b s with
                   | Some p => ptype_eqb (piece_type p) King
                   | None => false
                   end in
  if (f =? E1) && king_on E1 then
    if t =? H1 then plain_move E1 G1 None
    else if t =? A1 then plain_move E1 C1 None
    else plain_move f t None
  else if (f =? E8) && king_on E8 then
    if t =? H8 then plain_move E8 G8 None
    else if t =? A8 then plain_move E8 C8 None
    else plain_move f t None
  else plain_move f t None.

Definition castle_ok (b : Board) (a_side : bool) : bool :=
  let c := turn b in
  let r := back_rank c in
  let k := king_home c in
  let rook := square (if a_side then 0 else 7) r in
  let king_to := square (if a_side then 2 else 6) r in
  let rook_to := square (if a_side then 3 else 5) r in
  let between := if a_side then [square 1 r; square 2 r; square 3 r]
                 else [square 5 r; square 6 r] in
  let king_path := if a_side then [square 3 r; k] else [square 5 r; k] in
  let occ_no_king s := occupied b s && negb (s =? k) in
  let occ_castled s :=
    (occupied b s && negb (s =? k) && negb (s =? rook)) || (s =? rook_to) in
  if negb (is_piece (piece_at b k) King c) then false
  else if negb (has_right b rook) then false
  else if any (occupied b) between then false
  else if any (attacked_by b occ_no_king (negb c)) king_path then false
  else negb (attacked_by b occ_castled (negb c) king_to).

Definition is_castling_move (b : Board) (m : Move) : bool :=
  let c := turn b in
  let r := back_rank c in
  if (from_square m =? king_home c)
     && opt_ptype_eqb (promotion m) None && opt_ptype_eqb (drop m) None
  then
    if to_square m =? square 6 r then castle_ok b false
    else if to_square m =? square 2 r then castle_ok b true
    else false
  else false.

(** *** Pseudo-legal and legal moves *)

Definition is_promotion_piece (o : option PieceType) : bool :=
  match o with
  | Some Queen | Some Rook | Some Bishop | Some Knight => true
  | _ => false
  end.

Definition pawn_move_ok (b : Board) (m : Move) : bool :=
  let c := turn b in
  let f := from_square m in
  let t := to_square m in
  let ff := square_file f in
  let fr := square_rank f in
  let tf := square_file t in
  let tr := square_rank t in
  let up := (if c then 1 else -1)%Z in
  let last := ((tr =? 0) || (tr =? 7))%Z in
  let promo_ok := if last then is_promotion_piece (promotion m)
                  else opt_ptype_eqb (promotion m) None in
  let diagonal := ((Z.abs (tf - ff) =? 1) && (tr =? fr + up))%Z in
  let capture := diagonal && has_color (piece_at b t) (negb c) && promo_ok in
  let single := ((tf =? ff) && (tr =? fr + up))%Z
                && negb (occupied b t) && promo_ok in
  let double := ((tf =? ff) && (tr =? fr + 2 * up)
                 && (fr =? (if c then 1 else 6)))%Z
                && negb (occupied b (square ff (fr + up)))
                && negb (occupied b t)
                && opt_ptype_eqb (promotion m) None in
  let en_passant :=
    match ep_square b with
    | Some e => (t =? e) && negb (occupied b e) && diagonal
                && (fr =? (if c then 4 else 3))%Z
                && opt_ptype_eqb (promotion m) None
    | None => false
    end in
  capture || single || double || en_passant.

Definition is_null (m : Move) : bool :=
  (from_square m =? 0) && (to_square m =? 0)
  && opt_ptype_eqb (promotion m) None && opt_ptype_eqb (drop m) None.

Definition is_pseudo_legal (b : Board) (m : Move) : bool :=
  if is_null m then false
  else if negb (opt_ptype_eqb (drop m) None) then false
  else
    match piece_at b (from_square m) with
    | None => false
    | Some p =>
        if negb (Bool.eqb (color p) (turn b)) then false
        else if negb (opt_ptype_eqb (promotion m) None)
                && (negb (ptype_eqb (piece_type p) Pawn)
                    || negb (square_rank (to_square m)
                             =? (if turn b then 7 else 0))%Z)
        then false
        else if (if ptype_eqb (piece_type p) King
                 then is_castling_move b (_from_chess960 b m)
                 else false)
        then true
        else if has_color (piece_at b (to_square m)) (turn b) then false
        else if ptype_eqb (piece_type p) Pawn then pawn_move_ok b m
        else attacks (occupied b) p (from_square m) (to_square m)
    end.

(** *** Making a move *)

Definition _to_chess960 (b : Board) (m : Move) : Move :=
  let f := from_square m in
  let t := to_square m in
  let king_on s := match piece_at b s with
                   | Some p => ptype_eqb (piece_type p) King
                   | None => false
                   end in
  let rook_on s := match piece_at b s with
                   | Some p => ptype_eqb (piece_type p) Rook
                   | None => false
                   end in
  if (f =? E1) && king_on E1 then
    if (t =? G1) && negb (rook_on G1) then plain_move E1 H1 None
    else if (t =? C1) && negb (rook_on C1) then plain_move E1 A1 None
    else m
  else if (f =? E8) && king_on E8 then
    if (t =? G8) && negb (rook_on G8) then plain_move E8 H8 None
    else if (t =? C8) && negb (rook_on C8) then plain_move E8 A8 None
    else m
  else m.

Definition is_zeroing (b : Board) (m : Move) : bool :=
  is_piece (piece_at b (from_square m)) Pawn (turn b)
  || is_piece (piece_at b (to_square m)) Pawn (turn b)
  || has_color (piece_at b (from_square m)) (negb (turn b))
  || has_color (piece_at b (to_square m)) (negb (turn b)).

(** [board.push(move)] for a move that has a piece on its origin (every
    legal move has). *)
Definition push (b : Board) (m0 : Move) : Board :=
  let m := _to_chess960 b m0 in
  let c := turn b in
  let f := from_square m in
  let t := to_square m in
  match piece_at b f with
  | None => b
  | Some p =>
      let pt := piece_type p in
      let rights0 := filter (fun s => negb (s =? f) && negb (s =? t))
                            (clean_castling_rights b) in
      let rights :=
        if ptype_eqb pt King
        then filter (fun s => negb (square_rank s =? back_rank c)%Z) rights0
        else rights0 in
      let removed := set_nth (pieces b) f None in
      let diff := (Z.of_nat t - Z.of_nat f)%Z in
      let is_pawn := ptype_eqb pt Pawn in
      let new_ep :=
        if is_pawn && (diff =? 16)%Z && (square_rank f =? 1)%Z then Some (f + 8)
        else if is_pawn && (diff =? -16)%Z && (square_rank f =? 6)%Z
             then Some (f - 8)
             else None in
      let ep_capture :=
        is_pawn
        && match ep_square b with Some e => t =? e | None => false end
        && ((Z.abs diff =? 7) || (Z.abs diff =? 9))%Z
        && negb (occupied b t) in
      let after_ep :=
        if ep_capture then set_nth removed (if c then t - 8 else t + 8) None
        else removed in
      let placed_type := match promotion m with Some q => q | None => pt end in
      let castling := ptype_eqb placed_type King && has_color (piece_at b t) c in
      let a_side := (square_file t <? square_file f)%Z in
      let r := back_rank c in
      let final :=
        if castling then
          set_nth
            (set_nth (set_nth after_ep t None)
                     (square (if a_side then 2 else 6) r)
                     (Some {| piece_type := King; color := c |}))
            (square (if a_side then 3 else 5) r)
            (Some {| piece_type := Rook; color := c |})
        else
          set_nth after_ep t (Some {| piece_type := placed_type; color := c |}) in
      {| pieces := final;
         turn := negb c;
         castling_rights := rights;
         ep_square := new_ep;
         halfmove_clock := if is_zeroing b m then 0 else S (halfmove_clock b);
         fullmove_number := if c then fullmove_number b
                            else S (fullmove_number b) |}
  end.

(** The mover's king is attacked once the move is made. *)
Definition is_into_check (b : Board) (m : Move) : bool :=
  let b' := push b m in
  match king b' (turn b) with
  | Some k => attacked_by b' (occupied b') (negb (turn b)) k
  | None => false
  end.

Definition is_legal (b : Board) (m : Move) : bool :=
  if is_pseudo_legal b m then negb (is_into_check b m) else false.

(** The moves worth testing from a square: every destination, plain and
    with each promotion piece. *)
Definition moves_from (f : nat) : list Move :=
  flat_map (fun t =>
    map (plain_move f t)
        [None; Some Queen; Some Rook; Some Bishop; Some Knight]) SQUARES.

Definition own_squares (b : Board) : list nat :=
  filter (fun f => has_color (piece_at b f) (turn b)) SQUARES.

(** The moves [board.legal_moves] yields.  Castling is yielded as the
    king's two-square move only; written king-takes-rook it is still a
    member ([is_legal]). *)
Definition legal_moves (b : Board) : list Move :=
  flat_map (fun f =>
    filter (fun m => if has_color (piece_at b (to_square m)) (turn b)
                     then false else is_legal b m)
           (moves_from f)) (own_squares b).

Definition has_legal_move (b : Board) : bool :=
  any (fun f => any (is_legal b) (moves_from f)) (own_squares b).

Definition is_checkmate (b : Board) : bool :=
  if is_check b then negb (has_legal_move b) else false.

Definition is_stalemate (b : Board) : bool :=
  if is_check b then false else negb (has_legal_move b).

(** *** Insufficient material *)

Definition count_pieces (b : Board) (f : Piece -> bool) : nat :=
  List.length (filter (fun s => match piece_at b s with
                                | Some p => f p
                                | None => false
                                end) SQUARES).

Definition any_piece (b : Board) (f : nat -> Piece -> bool) : bool :=
  any (fun s => match piece_at b s with
                | Some p => f s p
                | None => false
                end) SQUARES.

Definition dark_square (s : nat) : bool :=
  Z.even (square_file s + square_rank s).

Definition has_insufficient_material (b : Board) (c : bool) : bool :=
  let mine pt := any_piece b (fun _ p => Bool.eqb (color p) c
                                         && ptype_eqb (piece_type p) pt) in
  let any pt := any_piece b (fun _ p => ptype_eqb (piece_type p) pt) in
  if mine Pawn || mine Rook || mine Queen then false
  else if mine Knight then
    (count_pieces b (fun p => Bool.eqb (color p) c) <=? 2)
    && negb (any_piece b (fun _ p =>
               Bool.eqb (color p) (negb c)
               && negb (ptype_eqb (piece_type p) King)
               && negb (ptype_eqb (piece_type p) Queen)))
  else if mine Bishop then
    let dark := any_piece b (fun s p => ptype_eqb (piece_type p) Bishop
                                        && dark_square s) in
    let light := any_piece b (fun s p => ptype_eqb (piece_type p) Bishop
                                         && negb (dark_square s)) in
    (negb dark || negb light) && negb (any Pawn) && negb (any Knight)
  else true.

Definition is_insufficient_material (b : Board) : bool :=
  has_insufficient_material b WHITE && has_insufficient_material b BLACK.

(** *** Position text *)

Definition symbol (p : Piece) : ascii :=
  let l := match piece_type p with
           | Pawn => "p" | Knight => "n" | Bishop => "b"
           | Rook => "r" | Queen => "q" | King => "k"
           end%char in
  if color p then ascii_of_nat (nat_of_ascii l - 32) else l.

Definition str_nat (n : nat) : string :=
  NilZero.string_of_uint (Nat.to_uint n).

Fixpoint rank_fen (l : list (option Piece)) (empty : nat) : string :=
  match l with
  | [] => if empty =? 0 then "" else str_nat empty
  | None :: t => rank_fen t (S empty)
  | Some p :: t =>
      (if empty =? 0 then "" else str_nat empty)
      ++ String (symbol p) (rank_fen t 0)
  end.

Definition board_fen (b : Board) : string :=
  String.concat "/"
    (map (fun r => rank_fen (firstn 8 (skipn (8 * r) (pieces b))) 0)
         [7; 6; 5; 4; 3; 2; 1; 0]).

Definition castling_xfen (b : Board) : string :=
  let flag sq s := if has_right b sq then s else "" in
  let s := flag H1 "K" ++ flag A1 "Q" ++ flag H8 "k" ++ flag A8 "q" in
  if String.eqb s "" then "-" else s.

Definition square_name (s : nat) : string :=
  String (ascii_of_nat (97 + s mod 8))
         (String (ascii_of_nat (49 + s / 8)) "").

Definition has_legal_en_passant (b : Board) : bool :=
  match ep_square b with
  | Some e =>
      any (fun f => if is_piece (piece_at b f) Pawn (turn b)
                       && negb (square_file f =? square_file e)%Z
                    then is_legal b (plain_move f e None)
                    else false) SQUARES
  | None => false
  end.

Definition fen (b : Board) : string :=
  board_fen b ++ " " ++ (if turn b then "w" else "b")
  ++ " " ++ castling_xfen b
  ++ " " ++ (match ep_square b with
             | Some e => if has_legal_en_passant b then square_name e else "-"
             | None => "-"
             end)
  ++ " " ++ str_nat (halfmove_clock b)
  ++ " " ++ str_nat (fullmove_number b).

End Chess.

#[export] Instance ChessRules : Rules := {|
  Board := Chess.Board;
  Move := Chess.Move;
  initial := Chess.initial;
  from_uci := Chess.from_uci;
  legal := Chess.is_legal;
  push := Chess.push;
  is_checkmate := Chess.is_checkmate;
  is_stalemate := Chess.is_stalemate;
  is_insufficient_material := Chess.is_insufficient_material;
  fen := Chess.fen;
  turn := Chess.turn
|}.

(** ** A scripted engine: an instance of [Selector]

    It remembers the position it was given and answers the next entry of
    a script ([None] once the script is used up). *)

Module Scripted.

Record Engine : Type := {
  position : option string;
  script : list (option string)
}.

Definition launch (answers : list (option string)) : Engine :=
  {| position := None; script := answers |}.

Definition set_fen_position (f : string) (e : Engine) : Engine :=
  {| position := Some f; script := script e |}.

Definition get_best_move_time (t : N) (e : Engine)
  : option string * Engine :=
  match script e with
  | [] => (None, e)
  | a :: rest => (a, {| position := position e; script := rest |})
  end.

End Scripted.

#[export] Instance ScriptedEngine : Selector := {|
  Stockfish := Scripted.Engine;
  set_fen_position := Scripted.set_fen_position;
  get_best_move_time := Scripted.get_best_move_time
|}.

(** ** Recorded games

    Sessions of the program over standard chess and a scripted engine. *)

Module Games.

(** The move a text denotes ([null] when it denotes none). *)
Definition uci (s : string) : Chess.Move :=
  match Chess.from_uci s with
  | Some m => m
  | None => Chess.null
  end.

(** The board after a list of moves from the initial position. *)
Definition played (moves : list string) : Chess.Board :=
  fold_left (fun b s => Chess.push b (uci s)) moves Chess.initial.

(** [game = ChessGame()] around an engine that will give these answers. *)
Definition fresh (answers : list (option string)) : ChessGame :=
  __init__ (Scripted.launch answers).

(** [/start] was requested: a colour is awaited. *)
Definition opened (answers : list (option string)) : ChessGame :=
  after [POST_start] (fresh answers).

(** The engine was given White and answered nothing. *)
Definition silent_white : ChessGame :=
  after [POST_move "white"] (opened [None; Some "e7e5"]).

(** Fool's mate with the engine playing White: 1. f3 e5 2. g4, and the
    human is about to play Qh4. *)
Definition before_mate : ChessGame :=
  after [POST_move "white"; POST_move "e7e5"]
        (opened [Some "f2f3"; Some "g2g4"]).

Definition mated : ChessGame := after [POST_move "d8h4"] before_mate.

End Games.

(** ** Outcomes of a request

    Every way a [/move] request can end, read off the branches of [move],
    [set_color], [make_move] and [_get_engine_move]: the phase and board
    it starts from, what the body and the engine's answer are, and the
    outcome. *)

Section Outcomes.

Context {R : Rules} {E : Selector}.

(** The engine's answer about [b] is a non-empty text that is no move. *)
Definition engine_garbage (b : Board) (e : Stockfish) (s : string) : Prop :=
  fst (consult b e) = Some s /\ s <> "" /\ from_uci s = None.

(** The engine's answer about [b] is the text [s] of the legal move [m]. *)
Definition engine_plays (b : Board) (e : Stockfish) (s : string)
           (m : Move) : Prop :=
  fst (consult b e) = Some s /\ s <> ""
  /\ from_uci s = Some m /\ legal b m = true.

(** The answer of [make_move] when the human's move ends the game. *)
Definition human_ending (b : Board) : string :=
  if is_checkmate b then "Checkmate, you win!" else "Draw".

(** The answer of [make_move] after the engine's move [s] led to [b]. *)
Definition reply_text (s : string) (b : Board) : string :=
  if is_checkmate b then s ++ newline ++ "Checkmate, I win!"
  else if is_stalemate b || is_insufficient_material b
       then s ++ newline ++ "Draw"
       else s.

Inductive MoveOutcome (g : ChessGame) (body : string)
  : Result ChessGame string -> Prop :=
| no_game :
    phase g = NotStarted ->
    MoveOutcome g body
      (Returned "No game in progress. Start a game with /start" g)
| invalid_color :
    phase g = AwaitingColorChoice ->
    ~ names_color body "white" -> ~ names_color body "black" ->
    MoveOutcome g body
      (Returned "Invalid color. Choose 'black' or 'white'." g)
| engine_is_black :
    phase g = AwaitingColorChoice ->
    names_color body "black" ->
    MoveOutcome g body
      (Returned "Engine is black. You are white. Make your move."
                (chosen BLACK g))
| white_without_board :
    phase g = AwaitingColorChoice ->
    names_color body "white" ->
    board g = None ->
    MoveOutcome g body (Raised AttributeError (chosen WHITE g))
| white_engine_error (b : Board) :
    phase g = AwaitingColorChoice ->
    names_color body "white" ->
    board g = Some b ->
    engine_fails b (engine g) ->
    MoveOutcome g body
      (Returned "Engine error"
         (with_engine (snd (consult b (engine g))) (chosen WHITE g)))
| white_engine_garbage (b : Board) (s : string) :
    phase g = AwaitingColorChoice ->
    names_color body "white" ->
    board g = Some b ->
    engine_garbage b (engine g) s ->
    MoveOutcome g body
      (Raised InvalidMoveError
         (with_engine (snd (consult b (engine g))) (chosen WHITE g)))
| white_first_move (b : Board) (s : string) (m : Move) :
    phase g = AwaitingColorChoice ->
    names_color body "white" ->
    board g = Some b ->
    engine_plays b (engine g) s m ->
    MoveOutcome g body
      (Returned ("You are white. First move: " ++ s)
         (with_board (Some (push b m))
            (with_engine (snd (consult b (engine g))) (chosen WHITE g))))
| not_a_move :
    phase g = InProgress ->
    from_uci (lower (strip body)) = None ->
    MoveOutcome g body (Returned "Illegal move" g)
| move_without_board (m : Move) :
    phase g = InProgress ->
    from_uci (lower (strip body)) = Some m ->
    board g = None ->
    MoveOutcome g body (Raised AttributeError g)
| not_legal (b : Board) (m : Move) :
    phase g = InProgress ->
    from_uci (lower (strip body)) = Some m ->
    board g = Some b -> legal b m = false ->
    MoveOutcome g body (Returned "Illegal move" g)
| human_ends_game (b : Board) (m : Move) :
    phase g = InProgress ->
    from_uci (lower (strip body)) = Some m ->
    board g = Some b -> legal b m = true ->
    terminal (push b m) = true ->
    MoveOutcome g body
      (Returned (human_ending (push b m)) (with_board (Some (push b m)) g))
| reply_engine_error (b : Board) (m : Move) :
    phase g = InProgress ->
    from_uci (lower (strip body)) = Some m ->
    board g = Some b -> legal b m = true ->
    terminal (push b m) = false ->
    engine_fails (push b m) (engine g) ->
    MoveOutcome g body
      (Returned "Engine error"
         (with_engine (snd (consult (push b m) (engine g)))
            (with_board (Some (push b m)) g)))
| reply_engine_garbage (b : Board) (m : Move) (s : string) :
    phase g = InProgress ->
    from_uci (lower (strip body)) = Some m ->
    board g = Some b -> legal b m = true ->
    terminal (push b m) = false ->
    engine_garbage (push b m) (engine g) s ->
    MoveOutcome g body
      (Raised InvalidMoveError
         (with_engine (snd (consult (push b m) (engine g)))
            (with_board (Some (push b m)) g)))
| reply_move (b : Board) (m : Move) (s : string) (m' : Move) :
    phase g = InProgress ->
    from_uci (lower (strip body)) = Some m ->
    board g = Some b -> legal b m = true ->
    terminal (push b m) = false ->
    engine_plays (push b m) (engine g) s m' ->
    MoveOutcome g body
      (Returned (reply_text s (push (push b m) m'))
         (with_board (Some (push (push b m) m'))
            (with_engine (snd (consult (push b m) (engine g))) g))).

(** [b'] is reached from [b] by legal moves only. *)
Inductive played_legally (b : Board) : Board -> Prop :=
| played_none : played_legally b b
| played_more (b' : Board) (m : Move) :
    played_legally b b' -> legal b' m = true ->
    played_legally b (push b' m).


End Outcomes.

(** ** Construction of the session

    [ChessGame()] looks for the engine's binary and launches it.  What it
    asks of the operating system, and the [Stockfish] constructor, form
    the interface [Host]. *)

Inductive PyVal : Type :=
| PyInt (n : Z)
| PyBool (b : bool).

Class Host {E : Selector} := {
  isfile : string -> bool;           (* os.path.isfile(path) *)
  access_X_OK : string -> bool;      (* os.access(path, os.X_OK) *)
  which : string -> option string;   (* shutil.which(name) *)
  Stockfish_new : string -> N -> list (string * PyVal) -> Stockfish
}.

Section Construction.

Context {R : Rules} {E : Selector} {H : Host}.

Definition possible_paths : list string :=
  [ "/usr/games/stockfish";
    "/usr/bin/stockfish";
    "/usr/local/bin/stockfish";
    "stockfish" ].

(** The loop of [_find_stockfish] over the paths still to try, and the
    [shutil.which] that follows it. *)
Fixpoint find_from (paths : list string) : option string :=
  match paths with
  | [] => which "stockfish"
  | path :: rest =>
      if isfile path || access_X_OK path then Some path
      else find_from rest
  end.

Definition _find_stockfish : option string := find_from possible_paths.




End Construction.

(** Three hosts for the scripted engine: one with the binary in
    [/usr/bin] only (and in [/usr/local/bin]), one with nothing but a
    binary on the search path, one with no binary at all. *)
Module Hosts.

Definition launch_silent (path : string) (depth : N)
           (parameters : list (string * PyVal)) : Scripted.Engine :=
  Scripted.launch [].

Definition usr_bin : @Host ScriptedEngine := {|
  isfile := fun p => String.eqb p "/usr/bin/stockfish"
                     || String.eqb p "/usr/local/bin/stockfish";
  access_X_OK := fun _ => false;
  which := fun _ => Some "/usr/bin/stockfish";
  Stockfish_new := launch_silent
|}.

Definition on_path : @Host ScriptedEngine := {|
  isfile := fun _ => false;
  access_X_OK := fun _ => false;
  which := fun _ => Some "/opt/bin/stockfish";
  Stockfish_new := launch_silent
|}.

Definition bare : @Host ScriptedEngine := {|
  isfile := fun _ => false;
  access_X_OK := fun _ => false;
  which := fun _ => None;
  Stockfish_new := launch_silent
|}.

End Hosts.

(** * Facts *)

(** ** Trimming and case *)

Lemma lstrip_head (s : string) :
  lstrip s = EmptyString
  \/ exists c s', lstrip s = String c s' /\ isspace c = false.
Proof.
  induction s as [|c s IH]; simpl.
  - now left.
  - destruct (isspace c) eqn:Hc; [exact IH|].
    right. now exists c, s.
Qed.

Lemma rstrip_head (c : ascii) (s : string) :
  isspace c = false -> exists r, rstrip (String c s) = String c r.
Proof.
  intros Hc. simpl. destruct (rstrip s) as [|d r].
  - rewrite Hc. now exists EmptyString.
  - now exists (String d r).
Qed.

Lemma rstrip_idempotent (s : string) : rstrip (rstrip s) = rstrip s.
Proof.
  induction s as [|c s IH]; simpl; [reflexivity|].
  destruct (rstrip s) as [|d r] eqn:Hr.
  - destruct (isspace c) eqn:Hc; simpl; [reflexivity|now rewrite Hc].
  - change (rstrip (String c (String d r))) with
      (match rstrip (String d r) with
       | EmptyString => if isspace c then EmptyString else String c EmptyString
       | String a r0 => String c (String a r0)
       end).
    now rewrite IH.
Qed.

Lemma lstrip_fixed (c : ascii) (s : string) :
  isspace c = false -> lstrip (String c s) = String c s.
Proof. intros Hc. simpl. now rewrite Hc. Qed.

(** Trimming twice is trimming once: [move] trims the body and
    [set_color] and [make_move] trim it again. *)
Lemma strip_idempotent (s : string) : strip (strip s) = strip s.
Proof.
  unfold strip.
  destruct (lstrip_head s) as [He | (c & s' & He & Hc)]; rewrite He.
  - reflexivity.
  - destruct (rstrip_head c s' Hc) as [r Hr].
    rewrite Hr, (lstrip_fixed c r Hc), <- Hr.
    apply rstrip_idempotent.
Qed.

Lemma in_list_colors (x : string) :
  in_list x ["black"; "white"] = true <-> x = "black" \/ x = "white".
Proof.
  unfold in_list. simpl. rewrite !orb_true_iff, !String.eqb_eq.
  intuition discriminate.
Qed.

Lemma names_color_strip (input color : string) :
  names_color (strip input) color <-> names_color input color.
Proof. unfold names_color. now rewrite strip_idempotent. Qed.

Lemma names_white (input : string) :
  names_color input "white" <-> lower (strip input) = "white".
Proof. reflexivity. Qed.

Lemma names_black (input : string) :
  names_color input "black" <-> lower (strip input) = "black".
Proof. reflexivity. Qed.

(** The guard of [set_color] is the colour test of the specification. *)
Lemma color_guard (input : string) :
  in_list (lower (strip input)) ["black"; "white"] = true
  <-> names_color input "black" \/ names_color input "white".
Proof. now rewrite in_list_colors, names_white, names_black. Qed.

Lemma color_guard_false (input : string) :
  ~ names_color input "white" -> ~ names_color input "black" ->
  in_list (lower (strip input)) ["black"; "white"] = false.
Proof.
  intros Hw Hb.
  destruct (in_list (lower (strip input)) ["black"; "white"]) eqn:H;
    [|reflexivity].
  apply color_guard in H. tauto.
Qed.

(** ** The session, for any rules and any engine *)

Ltac py_unfold :=
  unfold move, start, handle, make_move, set_color, _get_engine_move, start_game,
    board_push, engine_set_fen_position, engine_get_best_move_time,
    Move_from_uci, the_board, set_board, set_user_color, set_game_started,
    set_waiting_for_color, set_engine, bind, ret, raise, gets, modify.

Section SessionFacts.

Context {R : Rules} {E : Selector}.

Lemma truthy_some (s : string) : s <> "" -> truthy (Some s) = true.
Proof. destruct s; [congruence | reflexivity]. Qed.

Lemma phase_awaiting (g : ChessGame) :
  phase g = AwaitingColorChoice <-> waiting_for_color g = true.
Proof.
  unfold phase. destruct (waiting_for_color g), (game_started g);
    split; congruence.
Qed.

Lemma phase_in_progress (g : ChessGame) :
  phase g = InProgress
  <-> waiting_for_color g = false /\ game_started g = true.
Proof.
  unfold phase. destruct (waiting_for_color g), (game_started g);
    split; intros; try congruence; try tauto; destruct H; congruence.
Qed.

Lemma phase_not_started (g : ChessGame) :
  phase g = NotStarted
  <-> waiting_for_color g = false /\ game_started g = false.
Proof.
  unfold phase. destruct (waiting_for_color g), (game_started g);
    split; intros; try congruence; try tauto; destruct H; congruence.
Qed.

Lemma phase_never_finished (g : ChessGame) : phase g <> Finished.
Proof.
  unfold phase. destruct (waiting_for_color g), (game_started g); discriminate.
Qed.

(** *** Sessions and outcomes are what their parts are *)

Lemma game_ext (g g' : ChessGame) :
  board g = board g' ->
  user_color g = user_color g' ->
  game_started g = game_started g' ->
  waiting_for_color g = waiting_for_color g' ->
  engine g = engine g' ->
  g = g'.
Proof. destruct g, g'; cbn; intros; subst; reflexivity. Qed.

Lemma returned_ext {A} (r : Result ChessGame A) (a : A) (g' : ChessGame) :
  answer r = inl a ->
  board (state_of r) = board g' ->
  user_color (state_of r) = user_color g' ->
  game_started (state_of r) = game_started g' ->
  waiting_for_color (state_of r) = waiting_for_color g' ->
  engine (state_of r) = engine g' ->
  r = Returned a g'.
Proof.
  destruct r as [a0 g|e g]; cbn; intros Ha; [|discriminate].
  injection Ha as ->. intros. f_equal. now apply game_ext.
Qed.

Lemma raised_ext {A} (r : Result ChessGame A) (e : Exn) (g' : ChessGame) :
  answer r = inr e ->
  board (state_of r) = board g' ->
  user_color (state_of r) = user_color g' ->
  game_started (state_of r) = game_started g' ->
  waiting_for_color (state_of r) = waiting_for_color g' ->
  engine (state_of r) = engine g' ->
  r = Raised e g'.
Proof.
  destruct r as [a0 g|e0 g]; cbn; intros He; [discriminate|].
  injection He as ->. intros. f_equal. now apply game_ext.
Qed.

(** *** Dispatch of [move] *)

Lemma move_awaiting (body : string) (g : ChessGame) :
  phase g = AwaitingColorChoice -> move body g = set_color (strip body) g.
Proof.
  intros H. apply phase_awaiting in H. py_unfold. now rewrite H.
Qed.

Lemma move_in_progress (body : string) (g : ChessGame) :
  phase g = InProgress -> move body g = make_move (strip body) g.
Proof.
  intros H. apply phase_in_progress in H. destruct H as [Hw Hs].
  unfold move, bind, gets. now rewrite Hw, Hs.
Qed.

Lemma move_not_started (body : string) (g : ChessGame) :
  phase g = NotStarted ->
  move body g = Returned "No game in progress. Start a game with /start" g.
Proof.
  intros H. apply phase_not_started in H. destruct H as [Hw Hs].
  unfold move, bind, gets, ret. now rewrite Hw, Hs.
Qed.

Lemma set_color_strip (input : string) (g : ChessGame) :
  set_color (strip input) g = set_color input g.
Proof. unfold set_color. now rewrite strip_idempotent. Qed.

Lemma make_move_strip (input : string) (g : ChessGame) :
  make_move (strip input) g = make_move input g.
Proof. unfold make_move. now rewrite strip_idempotent. Qed.

(** *** The engine turn, case by case *)

Lemma engine_silent (g : ChessGame) (b : Board) :
  board g = Some b ->
  truthy (fst (consult b (engine g))) = false ->
  _get_engine_move g
  = Returned None (with_engine (snd (consult b (engine g))) g).
Proof.
  intros Hb Ht. py_unfold. rewrite Hb. cbn -[truthy].
  unfold consult in Ht. now rewrite Ht.
Qed.

Lemma engine_unparseable (g : ChessGame) (b : Board) (s : string) :
  board g = Some b ->
  fst (consult b (engine g)) = Some s -> s <> "" ->
  from_uci s = None ->
  _get_engine_move g
  = Raised InvalidMoveError (with_engine (snd (consult b (engine g))) g).
Proof.
  intros Hb Hr Hs Hp. py_unfold. rewrite Hb. cbn -[truthy].
  unfold consult in Hr. rewrite Hr, (truthy_some s Hs). cbn. now rewrite Hp.
Qed.

Lemma engine_illegal (g : ChessGame) (b : Board) (s : string) (m : Move) :
  board g = Some b ->
  fst (consult b (engine g)) = Some s -> s <> "" ->
  from_uci s = Some m -> legal b m = false ->
  _get_engine_move g
  = Returned None (with_engine (snd (consult b (engine g))) g).
Proof.
  intros Hb Hr Hs Hp Hl. py_unfold. rewrite Hb. cbn -[truthy].
  unfold consult in Hr. rewrite Hr, (truthy_some s Hs). cbn.
  rewrite Hp. cbn. rewrite Hb. now rewrite Hl.
Qed.

Lemma engine_moves (g : ChessGame) (b : Board) (s : string) (m : Move) :
  board g = Some b ->
  fst (consult b (engine g)) = Some s -> s <> "" ->
  from_uci s = Some m -> legal b m = true ->
  _get_engine_move g
  = Returned (Some s)
      (with_board (Some (push b m))
         (with_engine (snd (consult b (engine g))) g)).
Proof.
  intros Hb Hr Hs Hp Hl. py_unfold. rewrite Hb. cbn -[truthy].
  unfold consult in Hr. rewrite Hr, (truthy_some s Hs). cbn.
  rewrite Hp. cbn. rewrite Hb, Hl. cbn. rewrite Hb. reflexivity.
Qed.

Lemma engine_fails_turn (g : ChessGame) (b : Board) :
  board g = Some b -> engine_fails b (engine g) ->
  _get_engine_move g
  = Returned None (with_engine (snd (consult b (engine g))) g).
Proof.
  intros Hb [Ht | (s & m & Hr & Hs & Hp & Hl)].
  - now apply engine_silent.
  - now apply engine_illegal with s m.
Qed.

(** Whatever the engine answers, the turn leaves the flags and the
    player's colour alone, and the board is the old one or one legal push
    away. *)
Lemma engine_turn_frame (g : ChessGame) (b : Board) :
  board g = Some b ->
  let g' := state_of (_get_engine_move g) in
  user_color g' = user_color g
  /\ game_started g' = game_started g
  /\ waiting_for_color g' = waiting_for_color g
  /\ engine g' = snd (consult b (engine g))
  /\ (board g' = Some b
      \/ exists s m, fst (consult b (engine g)) = Some s
                     /\ from_uci s = Some m /\ legal b m = true
                     /\ board g' = Some (push b m)).
Proof.
  intros Hb.
  destruct (truthy (fst (consult b (engine g)))) eqn:Ht.
  - destruct (fst (consult b (engine g))) as [s|] eqn:Hr; [|discriminate].
    assert (Hs : s <> "") by (intros ->; discriminate).
    destruct (from_uci s) as [m|] eqn:Hp.
    + destruct (legal b m) eqn:Hl.
      * rewrite (engine_moves g b s m Hb Hr Hs Hp Hl). cbn.
        repeat split; auto. right. now exists s, m.
      * rewrite (engine_illegal g b s m Hb Hr Hs Hp Hl). cbn.
        repeat split; auto.
    + rewrite (engine_unparseable g b s Hb Hr Hs Hp). cbn.
      repeat split; auto.
  - rewrite (engine_silent g b Hb Ht). cbn. repeat split; auto.
Qed.

(** *** [make_move] on a legal move *)

Lemma board_with_board (x : option Board) (g : ChessGame) :
  board (with_board x g) = x.
Proof. reflexivity. Qed.

Lemma make_move_unparsed (input : string) (g : ChessGame) :
  from_uci (lower (strip input)) = None ->
  make_move input g = Returned "Illegal move" g.
Proof. intros H. unfold make_move. now rewrite H. Qed.

Lemma make_move_not_legal (input : string) (g : ChessGame) (b : Board)
      (m : Move) :
  board g = Some b ->
  from_uci (lower (strip input)) = Some m -> legal b m = false ->
  make_move input g = Returned "Illegal move" g.
Proof.
  intros Hb Hp Hl. py_unfold. now rewrite Hp, Hb, Hl.
Qed.

Section LegalMove.

Variables (input : string) (g : ChessGame) (b : Board) (m : Move).
Hypothesis Hboard : board g = Some b.
Hypothesis Hparse : from_uci (lower (strip input)) = Some m.
Hypothesis Hlegal : legal b m = true.

Lemma make_move_checkmate :
  is_checkmate (push b m) = true ->
  make_move input g
  = Returned "Checkmate, you win!" (with_board (Some (push b m)) g).
Proof.
  intros Hc. py_unfold. rewrite Hparse, Hboard, Hlegal. cbn.
  rewrite Hboard. cbn. now rewrite Hc.
Qed.

Lemma make_move_draw :
  is_checkmate (push b m) = false ->
  is_stalemate (push b m) || is_insufficient_material (push b m) = true ->
  make_move input g = Returned "Draw" (with_board (Some (push b m)) g).
Proof.
  intros Hc Hd. py_unfold. rewrite Hparse, Hboard, Hlegal. cbn -[orb].
  rewrite Hboard. cbn -[orb]. rewrite Hc, board_with_board. now rewrite Hd.
Qed.

(** When the human's move does not end the game, the engine turn runs
    and the answer is built from what it returns. *)
Lemma make_move_engine :
  terminal (push b m) = false ->
  make_move input g
  = match _get_engine_move (with_board (Some (push b m)) g) with
    | Returned em g2 =>
        if truthy em then
          match board g2 with
          | Some b2 =>
              if is_checkmate b2 then
                Returned (format em ++ newline ++ "Checkmate, I win!") g2
              else if is_stalemate b2 || is_insufficient_material b2 then
                Returned (format em ++ newline ++ "Draw") g2
              else Returned (format em) g2
          | None => Raised AttributeError g2
          end
        else Returned "Engine error" g2
    | Raised e g2 => Raised e g2
    end.
Proof.
  unfold terminal. intros Ht.
  apply orb_false_iff in Ht. destruct Ht as [Ht Hi].
  apply orb_false_iff in Ht. destruct Ht as [Hc Hs].
  unfold make_move, board_push, the_board, set_board, bind, ret, modify.
  rewrite Hparse, Hboard, Hlegal. cbn -[_get_engine_move orb].
  rewrite Hboard. cbn -[_get_engine_move orb].
  rewrite Hc, !board_with_board, Hs, Hi. cbn -[_get_engine_move].
  destruct (_get_engine_move (with_board (Some (push b m)) g))
    as [em g2 | e g2]; [|reflexivity].
  destruct (truthy em); cbn -[orb]; [|reflexivity].
  destruct (board g2) as [b2|] eqn:Hb2; cbn -[orb]; [|reflexivity].
  destruct (is_checkmate b2); cbn -[orb]; [reflexivity|].
  rewrite Hb2.
  destruct (is_stalemate b2 || is_insufficient_material b2); reflexivity.
Qed.

(** In particular the session is left as the engine turn leaves it. *)
Lemma make_move_engine_state :
  terminal (push b m) = false ->
  state_of (make_move input g)
  = state_of (_get_engine_move (with_board (Some (push b m)) g)).
Proof.
  intros Ht. rewrite (make_move_engine Ht).
  destruct (_get_engine_move (with_board (Some (push b m)) g))
    as [em g2 | e g2]; [|reflexivity].
  destruct (truthy em); [|reflexivity].
  destruct (board g2) as [b2|]; [|reflexivity].
  destruct (is_checkmate b2); [reflexivity|].
  destruct (is_stalemate b2 || is_insufficient_material b2); reflexivity.
Qed.

Lemma make_move_terminal_state :
  terminal (push b m) = true ->
  state_of (make_move input g) = with_board (Some (push b m)) g.
Proof.
  intros Ht. destruct (is_checkmate (push b m)) eqn:Hc.
  - now rewrite (make_move_checkmate Hc).
  - unfold terminal in Ht. rewrite Hc in Ht. cbn [orb] in Ht.
    now rewrite (make_move_draw Hc Ht).
Qed.

End LegalMove.

(** After a legal human move the board holds that move, followed at most
    by one legal engine move. *)
Lemma make_move_board (input : string) (g : ChessGame) (b : Board)
      (m : Move) :
  board g = Some b ->
  from_uci (lower (strip input)) = Some m ->
  legal b m = true ->
  board (state_of (make_move input g)) = Some (push b m)
  \/ exists s m',
       from_uci s = Some m' /\ legal (push b m) m' = true
       /\ board (state_of (make_move input g)) = Some (push (push b m) m').
Proof.
  intros Hb Hp Hl.
  destruct (terminal (push b m)) eqn:Ht.
  - rewrite (make_move_terminal_state input g b m Hb Hp Hl Ht). now left.
  - rewrite (make_move_engine_state input g b m Hb Hp Hl Ht).
    assert (Hb' : board (with_board (Some (push b m)) g)
                  = Some (push b m)) by reflexivity.
    destruct (engine_turn_frame _ _ Hb')
      as (_ & _ & _ & _ & [H | (s & m' & _ & Hp' & Hl' & H)]).
    + now left.
    + right. now exists s, m'.
Qed.

(** A legal human move never changes the flags. *)
Lemma make_move_keeps_phase (input : string) (g : ChessGame) (b : Board)
      (m : Move) :
  board g = Some b ->
  from_uci (lower (strip input)) = Some m ->
  legal b m = true ->
  phase (state_of (make_move input g)) = phase g.
Proof.
  intros Hb Hp Hl.
  destruct (terminal (push b m)) eqn:Ht.
  - now rewrite (make_move_terminal_state input g b m Hb Hp Hl Ht).
  - rewrite (make_move_engine_state input g b m Hb Hp Hl Ht).
    assert (Hb' : board (with_board (Some (push b m)) g)
                  = Some (push b m)) by reflexivity.
    destruct (engine_turn_frame _ _ Hb') as (_ & Hs & Hw & _ & _).
    cbv zeta in Hs, Hw. unfold phase. now rewrite Hw, Hs.
Qed.

(** *** Starting a game *)

(** C9.  [start] always returns its prompt, from any session: the board
    becomes the initial position and the phase [AwaitingColorChoice],
    whatever they were; a second [start] returns the same prompt and
    leaves the session exactly as the first one left it. *)
Theorem start_resets_and_is_idempotent (g : ChessGame) :
  exists g',
    start g = Returned "Game started. Choose engine color: black or white?" g'
    /\ board g' = Some initial
    /\ phase g' = AwaitingColorChoice
    /\ start g' = start g.
Proof.
  exists (with_waiting_for_color true
            (with_game_started false (with_board (Some initial) g))).
  repeat split.
Qed.

(** *** Rejected input *)

(** C4.  In a game in progress, an input that (trimmed and lower-cased)
    does not parse as a move, or parses to a move that is not legal on
    the current board, is answered "Illegal move" and the session is left
    exactly as it was -- through [make_move] and through the [/move]
    route. *)
Theorem illegal_move_leaves_session (g : ChessGame) (input : string) :
  phase g = InProgress ->
  (from_uci (lower (strip input)) = None
   \/ exists b m, board g = Some b
                  /\ from_uci (lower (strip input)) = Some m
                  /\ legal b m = false) ->
  make_move input g = Returned "Illegal move" g
  /\ move input g = Returned "Illegal move" g.
Proof.
  intros Hph Hbad.
  assert (H : make_move input g = Returned "Illegal move" g).
  { destruct Hbad as [Hp | (b & m & Hb & Hp & Hl)].
    - now apply make_move_unparsed.
    - now apply make_move_not_legal with b m. }
  split; [exact H|].
  now rewrite (move_in_progress input g Hph), make_move_strip.
Qed.

(** C8.  While a colour is awaited, a [/move] body that names neither
    "white" nor "black" is answered with the invalid-colour message and
    the session is left exactly as it was: the phase is still
    [AwaitingColorChoice] and the board is untouched. *)
Theorem bad_color_rejected (g : ChessGame) (input : string) :
  phase g = AwaitingColorChoice ->
  ~ names_color input "white" ->
  ~ names_color input "black" ->
  move input g = Returned "Invalid color. Choose 'black' or 'white'." g
  /\ phase (state_of (move input g)) = AwaitingColorChoice
  /\ board (state_of (move input g)) = board g.
Proof.
  intros Hph Hw Hb.
  assert (H : move input g
              = Returned "Invalid color. Choose 'black' or 'white'." g).
  { rewrite (move_awaiting input g Hph), set_color_strip.
    unfold set_color. now rewrite (color_guard_false input Hw Hb). }
  rewrite H. repeat split. exact Hph.
Qed.

(** *** Choosing a colour *)

Lemma set_color_black (g : ChessGame) (input : string) :
  names_color input "black" ->
  set_color input g
  = Returned "Engine is black. You are white. Make your move."
             (chosen BLACK g).
Proof.
  intros H. apply names_black in H. unfold set_color. rewrite H.
  reflexivity.
Qed.

Lemma set_color_white (g : ChessGame) (input : string) :
  names_color input "white" ->
  set_color input g
  = match _get_engine_move (chosen WHITE g) with
    | Returned em g' =>
        if truthy em
        then Returned ("You are white. First move: " ++ format em) g'
        else Returned "Engine error" g'
    | Raised e g' => Raised e g'
    end.
Proof.
  intros H. apply names_white in H. unfold set_color. rewrite H.
  cbn -[_get_engine_move truthy].
  unfold bind, set_user_color, set_game_started, set_waiting_for_color,
    modify, ret, chosen.
  cbn -[_get_engine_move truthy].
  destruct (_get_engine_move _) as [em g'|e g']; [|reflexivity].
  now destruct (truthy em).
Qed.

(** C1, as the code has it.  A [set_color] call whose input names a colour
    while a colour is awaited records the player's colour as the
    complement of the engine's and moves to [InProgress].  For "black"
    the engine is not consulted and the board is untouched, and the answer
    says the human plays White.  For "white", when the engine answers a
    non-empty text that parses to a legal move, that move is pushed once
    and the answer ends with the engine's text. *)
Theorem set_color_assigns (g : ChessGame) (b : Board) (input : string) :
  phase g = AwaitingColorChoice ->
  board g = Some b ->
  (names_color input "black" ->
     set_color input g
     = Returned "Engine is black. You are white. Make your move."
                (chosen BLACK g)
     /\ user_color (chosen BLACK g) = Some WHITE
     /\ phase (chosen BLACK g) = InProgress
     /\ board (chosen BLACK g) = Some b
     /\ engine (chosen BLACK g) = engine g)
  /\ (names_color input "white" ->
       user_color (state_of (set_color input g)) = Some BLACK
       /\ phase (state_of (set_color input g)) = InProgress
       /\ forall s m,
            fst (consult b (engine g)) = Some s -> s <> "" ->
            from_uci s = Some m -> legal b m = true ->
            set_color input g
            = Returned ("You are white. First move: " ++ s)
                (with_board (Some (push b m))
                   (with_engine (snd (consult b (engine g)))
                      (chosen WHITE g)))).
Proof.
  intros Hph Hb. split.
  - intros Hc. rewrite (set_color_black g input Hc). repeat split. exact Hb.
  - intros Hc. rewrite (set_color_white g input Hc).
    assert (Hb' : board (chosen WHITE g) = Some b) by exact Hb.
    destruct (engine_turn_frame (chosen WHITE g) b Hb')
      as (Hu & Hs & Hw & _ & _).
    cbv zeta in Hu, Hs, Hw.
    repeat split.
    + destruct (_get_engine_move (chosen WHITE g)) as [em g'|e g'];
        [destruct (truthy em)|]; exact Hu.
    + unfold phase.
      destruct (_get_engine_move (chosen WHITE g)) as [em g'|e g'];
        [destruct (truthy em)|]; cbn in *; now rewrite Hw, Hs.
    + intros s m Hr Hne Hp Hl.
      rewrite (engine_moves (chosen WHITE g) b s m Hb' Hr Hne Hp Hl).
      now rewrite (truthy_some s Hne).
Qed.

(** *** A human move that ends the game *)

(** C3, as the code has it.  In a game in progress, when the submitted
    move is legal and the position after it is checkmate, the answer is
    "Checkmate, you win!"; when it is not checkmate but stalemate or
    insufficient material, the answer is "Draw".  In both cases only the
    board changes: the engine is not consulted, and the flags are as they
    were, so the phase is still [InProgress]. *)
Theorem terminal_human_move (g : ChessGame) (b : Board) (input : string)
        (m : Move) :
  phase g = InProgress ->
  board g = Some b ->
  from_uci (lower (strip input)) = Some m ->
  legal b m = true ->
  terminal (push b m) = true ->
  exists msg,
    make_move input g = Returned msg (with_board (Some (push b m)) g)
    /\ (is_checkmate (push b m) = true -> msg = "Checkmate, you win!")
    /\ (is_checkmate (push b m) = false -> msg = "Draw")
    /\ engine (state_of (make_move input g)) = engine g
    /\ phase (state_of (make_move input g)) = InProgress.
Proof.
  intros Hph Hb Hp Hl Ht.
  destruct (is_checkmate (push b m)) eqn:Hc.
  - exists "Checkmate, you win!".
    rewrite (make_move_checkmate input g b m Hb Hp Hl Hc).
    repeat split; try discriminate. exact Hph.
  - exists "Draw".
    unfold terminal in Ht. rewrite Hc in Ht. cbn [orb] in Ht.
    rewrite (make_move_draw input g b m Hb Hp Hl Hc Ht).
    repeat split; try discriminate. exact Hph.
Qed.

(** *** The two opening scenarios *)

(** C2, as the code has it: the text names the engine's colour.  After
    [start] and "black" the engine is Black and the human White, the
    answer says the human plays White, the engine was not consulted and
    the board is the initial position.  After [start] and "white" the
    human is Black; when the engine answers a legal first move, the
    answer ends with it, the board is the initial position with that one
    move pushed, and it is Black's (the human's) turn. *)
Theorem opening_scenarios (g : ChessGame) :
  turn initial = WHITE ->
  (forall m, legal initial m = true ->
             turn (push initial m) = negb (turn initial)) ->
  let g1 := state_of (start g) in
  (exists g2,
      set_color "black" g1
      = Returned "Engine is black. You are white. Make your move." g2
      /\ user_color g2 = Some WHITE
      /\ board g2 = Some initial
      /\ engine g2 = engine g)
  /\ user_color (state_of (set_color "white" g1)) = Some BLACK
  /\ forall s m,
       fst (consult initial (engine g)) = Some s -> s <> "" ->
       from_uci s = Some m -> legal initial m = true ->
       exists g3,
         set_color "white" g1
         = Returned ("You are white. First move: " ++ s) g3
         /\ board g3 = Some (push initial m)
         /\ turn (push initial m) = BLACK
         /\ user_color g3 = Some (turn (push initial m)).
Proof.
  intros Hinit Hturn g1.
  assert (Hb' : board (chosen WHITE g1) = Some initial) by reflexivity.
  split; [|split].
  - eexists. split; [exact (set_color_black g1 "black" eq_refl)|].
    repeat split.
  - rewrite (set_color_white g1 "white" eq_refl).
    destruct (engine_turn_frame (chosen WHITE g1) initial Hb')
      as (Hu & _).
    cbv zeta in Hu.
    destruct (_get_engine_move (chosen WHITE g1)) as [em g'|e g'];
      [destruct (truthy em)|]; exact Hu.
  - intros s m Hs Hne Hp Hl. eexists. split.
    + rewrite (set_color_white g1 "white" eq_refl).
      rewrite (engine_moves (chosen WHITE g1) initial s m Hb' Hs Hne Hp Hl).
      rewrite (truthy_some s Hne). reflexivity.
    + assert (Ht : turn (push initial m) = BLACK).
      { rewrite (Hturn m Hl), Hinit. reflexivity. }
      repeat split; [exact Ht | now rewrite Ht].
Qed.

(** *** Phases *)

(** C6, as the code has it.  The flags move through [NotStarted],
    [AwaitingColorChoice] and [InProgress] in that order and never encode
    [Finished]: [start] leads to [AwaitingColorChoice] from anywhere; a
    [/move] request leaves [NotStarted] as it is, leaves
    [AwaitingColorChoice] for [InProgress] or stays, and never leaves
    [InProgress].  In [InProgress] every [/move] request runs
    [make_move], whether or not the board is a finished game. *)
Theorem phase_order (g : ChessGame) (body : string) :
  phase (state_of (start g)) = AwaitingColorChoice
  /\ phase (state_of (move body g)) <> Finished
  /\ (phase g = NotStarted ->
      move body g
      = Returned "No game in progress. Start a game with /start" g)
  /\ (phase g = AwaitingColorChoice ->
      phase (state_of (move body g)) = AwaitingColorChoice
      \/ phase (state_of (move body g)) = InProgress)
  /\ (phase g = InProgress ->
      move body g = make_move (strip body) g
      /\ phase (state_of (move body g)) = InProgress).
Proof.
  split; [reflexivity|].
  split; [apply phase_never_finished|].
  split; [apply move_not_started|].
  split.
  - intros Hph. rewrite (move_awaiting body g Hph), set_color_strip.
    destruct (in_list (lower (strip body)) ["black"; "white"]) eqn:Hin.
    + right. apply color_guard in Hin. destruct Hin as [Hc | Hc].
      * now rewrite (set_color_black g body Hc).
      * rewrite (set_color_white g body Hc).
        destruct (board g) as [b|] eqn:Hb.
        -- assert (Hb' : board (chosen WHITE g) = Some b) by exact Hb.
           destruct (engine_turn_frame (chosen WHITE g) b Hb')
             as (_ & Hs & Hw & _ & _).
           cbv zeta in Hs, Hw. unfold phase.
           destruct (_get_engine_move (chosen WHITE g)) as [em g'|e g'];
             [destruct (truthy em)|]; cbn in *; now rewrite Hw, Hs.
        -- unfold _get_engine_move, bind, the_board.
           assert (Hb' : board (chosen WHITE g) = None) by exact Hb.
           now rewrite Hb'.
    + left. unfold set_color. rewrite Hin. exact Hph.
  - intros Hph. split; [now apply move_in_progress|].
    rewrite (move_in_progress body g Hph), make_move_strip.
    destruct (from_uci (lower (strip body))) as [m|] eqn:Hp.
    2:{ now rewrite (make_move_unparsed body g Hp). }
    destruct (board g) as [b|] eqn:Hb.
    2:{ unfold make_move, bind, the_board. now rewrite Hp, Hb. }
    destruct (legal b m) eqn:Hl.
    2:{ now rewrite (make_move_not_legal body g b m Hb Hp Hl). }
    now rewrite (make_move_keeps_phase body g b m Hb Hp Hl).
Qed.

(** *** A failed first engine move *)

(** C7, as the code has it.  When the engine is given White and fails to
    produce a move, [set_color] answers "Engine error", the phase is
    [InProgress] and the board is untouched.  A colour sent again
    through [/move] is then handled by [make_move], not by [set_color]:
    where a colour name is not a move in coordinate notation it is
    answered "Illegal move" and nothing changes, the engine is not asked
    again. *)
Theorem failed_first_move (g : ChessGame) (b : Board) (input : string) :
  phase g = AwaitingColorChoice ->
  board g = Some b ->
  names_color input "white" ->
  engine_fails b (engine g) ->
  exists g',
    set_color input g = Returned "Engine error" g'
    /\ phase g' = InProgress
    /\ board g' = Some b
    /\ forall again,
         names_color again "white" \/ names_color again "black" ->
         move again g' = make_move (strip again) g'
         /\ (from_uci "white" = None -> from_uci "black" = None ->
             move again g' = Returned "Illegal move" g').
Proof.
  intros Hph Hb Hc Hfail.
  assert (Hb' : board (chosen WHITE g) = Some b) by exact Hb.
  exists (with_engine (snd (consult b (engine g))) (chosen WHITE g)).
  rewrite (set_color_white g input Hc).
  rewrite (engine_fails_turn (chosen WHITE g) b Hb' Hfail).
  split; [reflexivity|]. split; [reflexivity|]. split; [exact Hb|].
  intros again Hagain.
  set (g' := with_engine _ _).
  assert (Hph' : phase g' = InProgress) by reflexivity.
  split; [now apply move_in_progress|].
  intros Hw Hk.
  rewrite (move_in_progress again g' Hph'), make_move_strip.
  apply make_move_unparsed.
  destruct Hagain as [H | H].
  - apply names_white in H. now rewrite H.
  - apply names_black in H. now rewrite H.
Qed.

(** *** Whose move it is *)

Lemma engine_move_any_color (c : option bool) (g : ChessGame) :
  _get_engine_move (with_user_color c g)
  = map_state (with_user_color c) (_get_engine_move g).
Proof.
  py_unfold. cbn -[truthy].
  destruct (board g) as [b|] eqn:Hb; cbn -[truthy]; [|reflexivity].
  destruct (truthy _); cbn; [|reflexivity].
  destruct (from_uci _) as [m|]; cbn; [|reflexivity].
  rewrite Hb. destruct (legal b m); cbn; [|reflexivity].
  rewrite Hb. reflexivity.
Qed.

Lemma make_move_any_color (c : option bool) (input : string)
      (g : ChessGame) :
  make_move input (with_user_color c g)
  = map_state (with_user_color c) (make_move input g).
Proof.
  unfold make_move, board_push, the_board, set_board, bind, ret, modify.
  destruct (from_uci (lower (strip input))) as [m|]; [|reflexivity].
  cbn -[_get_engine_move orb truthy].
  destruct (board g) as [b|] eqn:Hb; cbn -[_get_engine_move orb truthy];
    [|reflexivity].
  destruct (legal b m); cbn -[_get_engine_move orb truthy]; [|reflexivity].
  rewrite Hb. cbn -[_get_engine_move orb truthy].
  destruct (is_checkmate (push b m)); [reflexivity|].
  rewrite !board_with_board.
  destruct (is_stalemate (push b m) || is_insufficient_material (push b m));
    [reflexivity|].
  change (with_board (Some (push b m)) (with_user_color c g))
    with (with_user_color c (with_board (Some (push b m)) g)).
  rewrite engine_move_any_color.
  destruct (_get_engine_move (with_board (Some (push b m)) g))
    as [em g2|e g2]; cbn -[orb truthy]; [|reflexivity].
  destruct (truthy em); cbn -[orb]; [|reflexivity].
  destruct (board g2) as [b2|] eqn:Hb2; cbn -[orb]; [|reflexivity].
  destruct (is_checkmate b2); [reflexivity|].
  cbn -[orb]. rewrite Hb2.
  destruct (is_stalemate b2 || is_insufficient_material b2); reflexivity.
Qed.

(** C10.  [make_move] does not look at the player's colour: its outcome
    is the same whatever [user_color] holds.  In a game in progress, an
    input that parses to a move legal on the current board is pushed,
    whichever side is to move; the board is left with that move on it,
    followed at most by one legal engine move. *)
Theorem any_legal_move_is_applied (g : ChessGame) (b : Board)
        (input : string) (m : Move) :
  phase g = InProgress ->
  board g = Some b ->
  from_uci (lower (strip input)) = Some m ->
  legal b m = true ->
  (forall c, make_move input (with_user_color c g)
             = map_state (with_user_color c) (make_move input g))
  /\ (board (state_of (make_move input g)) = Some (push b m)
      \/ exists s m',
           from_uci s = Some m' /\ legal (push b m) m' = true
           /\ board (state_of (make_move input g))
              = Some (push (push b m) m')).
Proof.
  intros Hph Hb Hp Hl. split.
  - intros c. apply make_move_any_color.
  - now apply make_move_board.
Qed.

(** *** The engine's reply to a human move *)

(** X1.  The engine turn pushes nothing but a move that is legal on the
    board the engine was asked about; otherwise the board is as it was. *)
Theorem engine_move_is_legal (g : ChessGame) (b : Board) :
  board g = Some b ->
  board (state_of (_get_engine_move g)) = Some b
  \/ exists s m, fst (consult b (engine g)) = Some s
                 /\ from_uci s = Some m /\ legal b m = true
                 /\ board (state_of (_get_engine_move g)) = Some (push b m).
Proof.
  intros Hb. destruct (engine_turn_frame g b Hb) as (_ & _ & _ & _ & H).
  exact H.
Qed.

(** X2.  After a legal human move that does not end the game, a legal
    engine answer [s] is pushed and returned: alone when the game goes on,
    followed by "Checkmate, I win!" or "Draw" on a new line when the
    engine's move ends it.  The flags are as they were. *)
Theorem engine_reply (g : ChessGame) (b : Board) (input : string)
        (m : Move) (s : string) (m' : Move) :
  board g = Some b ->
  from_uci (lower (strip input)) = Some m ->
  legal b m = true ->
  terminal (push b m) = false ->
  fst (consult (push b m) (engine g)) = Some s -> s <> "" ->
  from_uci s = Some m' ->
  legal (push b m) m' = true ->
  let b2 := push (push b m) m' in
  let g2 := with_board (Some b2)
              (with_engine (snd (consult (push b m) (engine g))) g) in
  (is_checkmate b2 = true ->
     make_move input g
     = Returned (s ++ newline ++ "Checkmate, I win!") g2)
  /\ (is_checkmate b2 = false ->
      is_stalemate b2 || is_insufficient_material b2 = true ->
      make_move input g = Returned (s ++ newline ++ "Draw") g2)
  /\ (terminal b2 = false -> make_move input g = Returned s g2)
  /\ phase g2 = phase g.
Proof.
  intros Hb Hp Hl Ht Hr Hne Hp' Hl' b2 g2.
  assert (Hb1 : board (with_board (Some (push b m)) g) = Some (push b m))
    by reflexivity.
  pose proof (make_move_engine input g b m Hb Hp Hl Ht) as Hmm.
  rewrite (engine_moves _ _ s m' Hb1 Hr Hne Hp' Hl') in Hmm.
  rewrite (truthy_some s Hne) in Hmm.
  change (board (with_board (Some (push (push b m) m'))
                   (with_engine (snd (consult (push b m)
                      (engine (with_board (Some (push b m)) g))))
                      (with_board (Some (push b m)) g))))
    with (Some b2) in Hmm.
  cbn [format] in Hmm.
  split; [|split; [|split]].
  - intros Hc. rewrite Hmm, Hc. reflexivity.
  - intros Hc Hd. rewrite Hmm, Hc, Hd. reflexivity.
  - unfold terminal. intros Hn.
    apply orb_false_iff in Hn. destruct Hn as [Hn Hi].
    apply orb_false_iff in Hn. destruct Hn as [Hc Hs].
    rewrite Hmm, Hc, Hs, Hi. reflexivity.
  - reflexivity.
Qed.

(** X3.  After a legal human move that does not end the game, an engine
    that fails to produce a move leaves the session in progress with the
    human's move on the board and no reply: the answer is "Engine
    error". *)
Theorem engine_failure_after_human_move (g : ChessGame) (b : Board)
        (input : string) (m : Move) :
  board g = Some b ->
  from_uci (lower (strip input)) = Some m ->
  legal b m = true ->
  terminal (push b m) = false ->
  engine_fails (push b m) (engine g) ->
  make_move input g
  = Returned "Engine error"
      (with_engine (snd (consult (push b m) (engine g)))
         (with_board (Some (push b m)) g))
  /\ phase (state_of (make_move input g)) = phase g
  /\ board (state_of (make_move input g)) = Some (push b m).
Proof.
  intros Hb Hp Hl Ht Hf.
  assert (Hb1 : board (with_board (Some (push b m)) g) = Some (push b m))
    by reflexivity.
  assert (H : make_move input g
              = Returned "Engine error"
                  (with_engine (snd (consult (push b m) (engine g)))
                     (with_board (Some (push b m)) g))).
  { rewrite (make_move_engine input g b m Hb Hp Hl Ht).
    now rewrite (engine_fails_turn _ _ Hb1 Hf). }
  rewrite H. repeat split.
Qed.

(** *** Sessions that can arise *)

(** X4.  Every list of requests keeps the board in existence: if the
    board exists whenever a game was started, it still does afterwards.
    The session the program creates is such a session. *)
Lemma board_exists_after (rs : list Request) (g : ChessGame) :
  (phase g <> NotStarted -> board g <> None) ->
  phase (after rs g) <> NotStarted -> board (after rs g) <> None.
Proof.
  revert g. induction rs as [|r rs IH]; intros g Hg; [exact Hg|].
  cbn. apply IH. clear IH.
  destruct r as [|body]; [discriminate|].
  cbn [handle].
  destruct (phase g) eqn:Hph.
  - rewrite (move_not_started body g Hph). cbn. now rewrite Hph.
  - assert (Hb : board g <> None) by (apply Hg; discriminate).
    destruct (board g) as [b|] eqn:Hbd; [clear Hb|congruence].
    intros _. rewrite (move_awaiting body g Hph), set_color_strip.
    destruct (in_list (lower (strip body)) ["black"; "white"]) eqn:Hin.
    + apply color_guard in Hin. destruct Hin as [Hc | Hc].
      * rewrite (set_color_black g body Hc). cbn. now rewrite Hbd.
      * rewrite (set_color_white g body Hc).
        assert (Hb' : board (chosen WHITE g) = Some b) by exact Hbd.
        destruct (engine_turn_frame (chosen WHITE g) b Hb')
          as (_ & _ & _ & _ & Hboard).
        cbv zeta in Hboard.
        assert (H : board (state_of (_get_engine_move (chosen WHITE g)))
                    <> None).
        { destruct Hboard as [H | (s & m & _ & _ & _ & H)];
            rewrite H; discriminate. }
        destruct (_get_engine_move (chosen WHITE g)) as [em g'|e g'];
          [destruct (truthy em)|]; exact H.
    + unfold set_color. rewrite Hin. cbn. now rewrite Hbd.
  - assert (Hb : board g <> None) by (apply Hg; discriminate).
    destruct (board g) as [b|] eqn:Hbd; [clear Hb|congruence].
    intros _. rewrite (move_in_progress body g Hph), make_move_strip.
    destruct (from_uci (lower (strip body))) as [m|] eqn:Hp.
    2:{ rewrite (make_move_unparsed body g Hp). cbn. now rewrite Hbd. }
    destruct (legal b m) eqn:Hl.
    2:{ rewrite (make_move_not_legal body g b m Hbd Hp Hl). cbn.
        now rewrite Hbd. }
    destruct (make_move_board body g b m Hbd Hp Hl)
      as [H | (s & m' & _ & _ & H)]; rewrite H; discriminate.
  - now apply phase_never_finished in Hph.
Qed.

End SessionFacts.

(** ** Standard chess *)

Lemma to_chess960_from (b : Chess.Board) (m : Chess.Move) :
  Chess.from_square (Chess._to_chess960 b m) = Chess.from_square m.
Proof.
  unfold Chess._to_chess960.
  repeat match goal with
         | |- context [if ?c then _ else _] => destruct c eqn:?
         end;
    unfold Chess.plain_move; cbn [Chess.from_square]; try reflexivity;
    repeat match goal with
           | H : (_ && _) = true |- _ => apply andb_prop in H; destruct H
           end;
    repeat match goal with
           | H : Nat.eqb _ _ = true |- _ => apply Nat.eqb_eq in H
           end;
    unfold Chess.E1, Chess.E8 in *; lia.
Qed.

Lemma pseudo_legal_has_piece (b : Chess.Board) (m : Chess.Move) :
  Chess.is_pseudo_legal b m = true ->
  Chess.piece_at b (Chess.from_square m) <> None.
Proof.
  unfold Chess.is_pseudo_legal.
  destruct (Chess.is_null m); [discriminate|].
  destruct (negb _); [discriminate|].
  destruct (Chess.piece_at b (Chess.from_square m)); discriminate.
Qed.

(** A legal move hands the turn to the other side. *)
Lemma push_flips_turn (b : Chess.Board) (m : Chess.Move) :
  Chess.is_legal b m = true ->
  Chess.turn (Chess.push b m) = negb (Chess.turn b).
Proof.
  unfold Chess.is_legal. intros H.
  destruct (Chess.is_pseudo_legal b m) eqn:Hp; [|discriminate].
  apply pseudo_legal_has_piece in Hp.
  unfold Chess.push. rewrite to_chess960_from.
  destruct (Chess.piece_at b (Chess.from_square m)); [reflexivity|congruence].
Qed.

(** A colour name is not a move in coordinate notation. *)
Lemma colors_are_not_moves :
  Chess.from_uci "white" = None /\ Chess.from_uci "black" = None.
Proof. split; reflexivity. Qed.

(** ** Recorded games, replayed *)

(** An outcome or a session of a recorded game is compared part by part,
    each part being computed. *)
Ltac replay :=
  lazymatch goal with
  | |- @eq (Result _ _) _ (Returned _ _) =>
      apply returned_ext; vm_compute; reflexivity
  | |- @eq (Result _ _) _ (Raised _ _) =>
      apply raised_ext; vm_compute; reflexivity
  | |- @eq (Result _ _) _ _ => fail "an outcome is compared with a constructor"
  | |- @eq (@ChessGame _ _) _ _ => apply game_ext; vm_compute; reflexivity
  | |- @eq _ _ _ => vm_compute; reflexivity
  | |- names_color _ _ => vm_compute; reflexivity
  end.

Ltac split_all := repeat match goal with |- _ /\ _ => split end.

(** C4 on a real board: "e2e5" on the initial position, the human playing
    White. *)
Lemma illegal_move_e2e5 :
  make_move "e2e5" (after [POST_move "black"] (Games.opened []))
  = Returned "Illegal move" (after [POST_move "black"] (Games.opened []))
  /\ move "e2e5" (after [POST_move "black"] (Games.opened []))
     = Returned "Illegal move" (after [POST_move "black"] (Games.opened [])).
Proof.
  apply (illegal_move_leaves_session
           (after [POST_move "black"] (Games.opened [])) "e2e5").
  - vm_compute. reflexivity.
  - right. exists Chess.initial, (Games.uci "e2e5").
    split_all; vm_compute; reflexivity.
Defined.

(** C8 on a real board: "e2e4" sent while the colour is awaited. *)
Lemma move_before_color_rejected :
  move "e2e4" (Games.opened [])
  = Returned "Invalid color. Choose 'black' or 'white'." (Games.opened [])
  /\ phase (state_of (move "e2e4" (Games.opened []))) = AwaitingColorChoice
  /\ board (state_of (move "e2e4" (Games.opened [])))
     = board (Games.opened []).
Proof.
  apply (bad_color_rejected (Games.opened []) "e2e4").
  - reflexivity.
  - intros H. vm_compute in H. discriminate H.
  - intros H. vm_compute in H. discriminate H.
Defined.

(** C1, as the code has it, on a real board: the engine is given White
    and opens with e2e4. *)
Lemma engine_white_opens :
  set_color " White " (Games.opened [Some "e2e4"])
  = Returned "You are white. First move: e2e4"
             (after [POST_move " White "] (Games.opened [Some "e2e4"]))
  /\ user_color (state_of (set_color " White " (Games.opened [Some "e2e4"])))
     = Some BLACK
  /\ phase (state_of (set_color " White " (Games.opened [Some "e2e4"])))
     = InProgress
  /\ board (after [POST_move " White "] (Games.opened [Some "e2e4"]))
     = Some (Games.played ["e2e4"]).
Proof.
  destruct (set_color_assigns (Games.opened [Some "e2e4"]) Chess.initial
              " White " eq_refl eq_refl) as [_ Hw].
  destruct (Hw eq_refl) as (Hu & Hp & Hmv).
  split; [|split; [exact Hu|split; [exact Hp|vm_compute; reflexivity]]].
  rewrite (Hmv "e2e4" (Games.uci "e2e4") eq_refl
               ltac:(discriminate) eq_refl eq_refl).
  replay.
Defined.

(** C1 fails as stated: the engine is given White and answers nothing.
    The colour is awaited and the input is "white", yet the answer is
    "Engine error" and the board is still the initial position: no engine
    move was made and none is in the answer. *)
Lemma silent_engine_makes_no_first_move :
  phase (Games.opened [None]) = AwaitingColorChoice
  /\ names_color "white" "white"
  /\ set_color "white" (Games.opened [None])
     = Returned "Engine error" (after [POST_move "white"] (Games.opened [None]))
  /\ board (after [POST_move "white"] (Games.opened [None]))
     = Some Chess.initial.
Proof. split_all; replay. Qed.

(** C2, as the code has it, on a real board. *)
Lemma opening_scenarios_on_chess :
  (exists g2,
      set_color "black" (Games.opened [Some "e2e4"])
      = Returned "Engine is black. You are white. Make your move." g2
      /\ user_color g2 = Some WHITE
      /\ board g2 = Some Chess.initial)
  /\ user_color (state_of (set_color "white" (Games.opened [Some "e2e4"])))
     = Some BLACK
  /\ exists g3,
      set_color "white" (Games.opened [Some "e2e4"])
      = Returned "You are white. First move: e2e4" g3
      /\ board g3 = Some (Games.played ["e2e4"])
      /\ Chess.turn (Games.played ["e2e4"]) = BLACK.
Proof.
  destruct (opening_scenarios (Games.fresh [Some "e2e4"]) eq_refl
              (push_flips_turn Chess.initial))
    as ((g2 & Hr & Hu & Hb & _) & Hu' & Hw).
  split; [|split].
  - exists g2. repeat split; assumption.
  - exact Hu'.
  - destruct (Hw "e2e4" (Games.uci "e2e4") eq_refl
                 ltac:(discriminate) eq_refl eq_refl)
      as (g3 & Hr3 & Hb3 & Ht3 & _).
    exists g3. repeat split; assumption.
Defined.

(** C2 fails as stated: after [start] and "white" the human is Black and
    the engine's first move is already on the board; after [start] and
    "black" the human is White and no move was made. *)
Lemma white_names_the_engine :
  user_color (after [POST_start; POST_move "white"]
                    (Games.fresh [Some "e2e4"])) = Some BLACK
  /\ board (after [POST_start; POST_move "white"]
                  (Games.fresh [Some "e2e4"])) = Some (Games.played ["e2e4"])
  /\ board (after [POST_start; POST_move "white"]
                  (Games.fresh [Some "e2e4"])) <> Some Chess.initial
  /\ user_color (after [POST_start; POST_move "black"]
                       (Games.fresh [Some "e2e4"])) = Some WHITE
  /\ board (after [POST_start; POST_move "black"]
                  (Games.fresh [Some "e2e4"])) = Some Chess.initial.
Proof.
  split_all; try replay.
  intros H. apply (f_equal (option_map Chess.turn)) in H.
  vm_compute in H. discriminate H.
Qed.

(** C3, as the code has it, on a real board: fool's mate. *)
Lemma fools_mate_is_reported :
  make_move "d8h4" Games.before_mate
  = Returned "Checkmate, you win!" Games.mated
  /\ engine Games.mated = engine Games.before_mate
  /\ phase Games.mated = InProgress.
Proof.
  assert (Hph : phase Games.before_mate = InProgress)
    by (vm_compute; reflexivity).
  assert (Hb : board Games.before_mate
               = Some (Games.played ["f2f3"; "e7e5"; "g2g4"]))
    by (vm_compute; reflexivity).
  assert (Hl : legal (Games.played ["f2f3"; "e7e5"; "g2g4"])
                     (Games.uci "d8h4") = true)
    by (vm_compute; reflexivity).
  assert (Hm : is_checkmate (push (Games.played ["f2f3"; "e7e5"; "g2g4"])
                                  (Games.uci "d8h4")) = true)
    by (vm_compute; reflexivity).
  assert (Ht : terminal (push (Games.played ["f2f3"; "e7e5"; "g2g4"])
                              (Games.uci "d8h4")) = true)
    by (vm_compute; reflexivity).
  destruct (terminal_human_move Games.before_mate
              (Games.played ["f2f3"; "e7e5"; "g2g4"]) "d8h4"
              (Games.uci "d8h4") Hph Hb eq_refl Hl Ht)
    as (msg & Hr & Hc & _ & He & Hp).
  rewrite (Hc Hm) in Hr.
  rewrite Hr in He, Hp. cbn [state_of] in He, Hp.
  assert (Hg : with_board
                 (Some (push (Games.played ["f2f3"; "e7e5"; "g2g4"])
                             (Games.uci "d8h4")))
                 Games.before_mate = Games.mated)
    by replay.
  rewrite Hg in Hr, He, Hp.
  split; [exact Hr|split; [exact He|exact Hp]].
Defined.

(** C3 fails as stated: the human mates, the answer reports the win, and
    the phase is still [InProgress], not [Finished]: both flags are as
    they were. *)
Lemma mate_leaves_phase_in_progress :
  move "d8h4" Games.before_mate
  = Returned "Checkmate, you win!" Games.mated
  /\ Chess.is_checkmate (Games.played ["f2f3"; "e7e5"; "g2g4"; "d8h4"]) = true
  /\ phase Games.mated = InProgress
  /\ phase Games.mated <> Finished
  /\ game_started Games.mated = game_started Games.before_mate
  /\ waiting_for_color Games.mated = waiting_for_color Games.before_mate.
Proof.
  split_all; try replay.
  intros H. vm_compute in H. discriminate H.
Qed.

(** C5: a text from the engine that is not a move escapes as an
    exception.  The engine answers "xyz": [_get_engine_move] raises
    [InvalidMoveError], and so do [set_color] and [make_move] around it;
    in [make_move] the human's move is already on the board. *)
Theorem engine_garbage_escapes :
  _get_engine_move (Games.opened [Some "xyz"])
  = Raised InvalidMoveError
           (state_of (_get_engine_move (Games.opened [Some "xyz"])))
  /\ move "white" (Games.opened [Some "xyz"])
     = Raised InvalidMoveError
              (after [POST_move "white"] (Games.opened [Some "xyz"]))
  /\ move "e2e4" (after [POST_move "black"] (Games.opened [Some "xyz"]))
     = Raised InvalidMoveError
              (after [POST_move "black"; POST_move "e2e4"]
                     (Games.opened [Some "xyz"]))
  /\ board (after [POST_move "black"; POST_move "e2e4"]
                  (Games.opened [Some "xyz"]))
     = Some (Games.played ["e2e4"]).
Proof. split_all; replay. Qed.

(** C6 fails as stated: after the mate was reported, a [/move] request
    still runs [make_move] -- it is answered "Illegal move", not "No game
    in progress" -- with no [start] in between. *)
Lemma make_move_runs_after_mate :
  move "d8h4" Games.before_mate
  = Returned "Checkmate, you win!" Games.mated
  /\ move "a2a3" Games.mated = make_move "a2a3" Games.mated
  /\ move "a2a3" Games.mated = Returned "Illegal move" Games.mated
  /\ move "a2a3" Games.mated
     <> Returned "No game in progress. Start a game with /start" Games.mated.
Proof.
  assert (H : move "a2a3" Games.mated = Returned "Illegal move" Games.mated)
    by replay.
  split; [replay|].
  split; [exact (move_in_progress "a2a3" Games.mated eq_refl)|].
  split; [exact H|].
  rewrite H. discriminate.
Qed.

(** C7, as the code has it, on a real board. *)
Lemma failed_first_move_on_chess :
  set_color "white" (Games.opened [None; Some "e7e5"])
  = Returned "Engine error" Games.silent_white
  /\ phase Games.silent_white = InProgress
  /\ board Games.silent_white = Some Chess.initial
  /\ move "white" Games.silent_white
     = Returned "Illegal move" Games.silent_white.
Proof.
  destruct (failed_first_move (Games.opened [None; Some "e7e5"])
              Chess.initial "white" eq_refl eq_refl eq_refl
              (or_introl eq_refl))
    as (g' & Hr & Hp & Hb & Hagain).
  assert (Hg : g' = Games.silent_white).
  { assert (H : set_color "white" (Games.opened [None; Some "e7e5"])
                = Returned "Engine error" Games.silent_white)
      by replay.
    rewrite H in Hr. now injection Hr. }
  subst g'.
  split; [exact Hr|split; [exact Hp|split; [exact Hb|]]].
  destruct (Hagain "white" (or_introl eq_refl)) as [_ H].
  exact (H (proj1 colors_are_not_moves) (proj2 colors_are_not_moves)).
Defined.

(** C7 fails as stated: sending the colour again is no retry.  The text
    is answered "Illegal move", the engine is not asked again (its script
    is untouched) and the board is still the initial position. *)
Lemma color_again_is_no_retry :
  phase Games.silent_white = InProgress
  /\ move "white" Games.silent_white
     = Returned "Illegal move" Games.silent_white
  /\ Scripted.script (engine (state_of (move "white" Games.silent_white)))
     = [Some "e7e5"]
  /\ board (state_of (move "white" Games.silent_white)) = Some Chess.initial.
Proof. split_all; replay. Qed.

(** C10 on a real board: the engine was given White and made no move; the
    human, who is Black, sends White's e2e4.  It is pushed, and the engine
    then answers with a move of the Black pieces. *)
Lemma engine_pieces_can_be_moved :
  user_color Games.silent_white = Some BLACK
  /\ Chess.turn Chess.initial = WHITE
  /\ (forall c, make_move "e2e4" (with_user_color c Games.silent_white)
                = map_state (with_user_color c)
                            (make_move "e2e4" Games.silent_white))
  /\ make_move "e2e4" Games.silent_white
     = Returned "e7e5" (after [POST_move "e2e4"] Games.silent_white)
  /\ board (after [POST_move "e2e4"] Games.silent_white)
     = Some (Games.played ["e2e4"; "e7e5"]).
Proof.
  destruct (any_legal_move_is_applied Games.silent_white Chess.initial
              "e2e4" (Games.uci "e2e4") eq_refl eq_refl eq_refl eq_refl)
    as [Hc _].
  split; [reflexivity|split; [reflexivity|split; [exact Hc|]]].
  split; replay.
Defined.

(** The engine turn on a real board: asked about the initial position
    the engine answers e2e4, and that legal move is what is pushed. *)
Lemma engine_move_is_legal_on_chess :
  board (state_of (_get_engine_move (Games.opened [Some "e2e4"])))
  = Some Chess.initial
  \/ exists s m,
       fst (consult Chess.initial (engine (Games.opened [Some "e2e4"])))
       = Some s
       /\ Chess.from_uci s = Some m /\ Chess.is_legal Chess.initial m = true
       /\ board (state_of (_get_engine_move (Games.opened [Some "e2e4"])))
          = Some (Chess.push Chess.initial m).
Proof.
  exact (engine_move_is_legal (Games.opened [Some "e2e4"]) Chess.initial
           eq_refl).
Defined.

(** The engine's reply on a real board: in the fool's mate game the human
    plays e7e5 and the engine answers g2g4. *)
Lemma engine_replies_g2g4 :
  make_move "e7e5" (after [POST_move "white"]
                          (Games.opened [Some "f2f3"; Some "g2g4"]))
  = Returned "g2g4" Games.before_mate.
Proof.
  assert (Ht : terminal (push (Games.played ["f2f3"]) (Games.uci "e7e5"))
               = false) by (vm_compute; reflexivity).
  assert (Hl : legal (push (Games.played ["f2f3"]) (Games.uci "e7e5"))
                     (Games.uci "g2g4") = true) by (vm_compute; reflexivity).
  assert (Ht2 : terminal (push (push (Games.played ["f2f3"])
                                     (Games.uci "e7e5")) (Games.uci "g2g4"))
                = false) by (vm_compute; reflexivity).
  destruct (engine_reply
              (after [POST_move "white"]
                     (Games.opened [Some "f2f3"; Some "g2g4"]))
              (Games.played ["f2f3"]) "e7e5" (Games.uci "e7e5")
              "g2g4" (Games.uci "g2g4")
              eq_refl eq_refl eq_refl Ht eq_refl ltac:(discriminate)
              eq_refl Hl) as (_ & _ & Hr & _).
  rewrite (Hr Ht2). apply f_equal. replay.
Defined.

(** An engine failure after a human move, on a real board: the human
    plays e2e4 and the engine answers nothing. *)
Lemma engine_silent_after_e2e4 :
  make_move "e2e4" (after [POST_move "black"] (Games.opened [None]))
  = Returned "Engine error"
      (after [POST_move "black"; POST_move "e2e4"] (Games.opened [None]))
  /\ phase (after [POST_move "black"; POST_move "e2e4"] (Games.opened [None]))
     = InProgress
  /\ board (after [POST_move "black"; POST_move "e2e4"] (Games.opened [None]))
     = Some (Games.played ["e2e4"]).
Proof.
  assert (Ht : terminal (push Chess.initial (Games.uci "e2e4")) = false)
    by (vm_compute; reflexivity).
  destruct (engine_failure_after_human_move
              (after [POST_move "black"] (Games.opened [None]))
              Chess.initial "e2e4" (Games.uci "e2e4")
              eq_refl eq_refl eq_refl Ht (or_introl eq_refl))
    as (Hr & _ & _).
  split; [|split; replay].
  rewrite Hr. apply f_equal. replay.
Defined.

(** From the session the program creates, a game that was started has a
    board: here after [/start] and a colour. *)
Lemma board_exists_in_started_game :
  board (after [POST_start; POST_move "white"] (Games.fresh [Some "e2e4"]))
  <> None.
Proof.
  apply (board_exists_after [POST_start; POST_move "white"]
           (Games.fresh [Some "e2e4"])).
  - intros H. exfalso. apply H. reflexivity.
  - intros H. vm_compute in H. discriminate H.
Defined.

(** * More of the session *)

Section Outcome_Facts.

Context {R : Rules} {E : Selector}.

(** The engine turn ends in one of three ways. *)
Lemma engine_turn_cases (g : ChessGame) (b : Board) :
  board g = Some b ->
  (engine_fails b (engine g)
   /\ _get_engine_move g
      = Returned None (with_engine (snd (consult b (engine g))) g))
  \/ (exists s,
        engine_garbage b (engine g) s
        /\ _get_engine_move g
           = Raised InvalidMoveError
                    (with_engine (snd (consult b (engine g))) g))
  \/ (exists s m,
        engine_plays b (engine g) s m
        /\ _get_engine_move g
           = Returned (Some s)
               (with_board (Some (push b m))
                  (with_engine (snd (consult b (engine g))) g))).
Proof.
  intros Hb.
  destruct (truthy (fst (consult b (engine g)))) eqn:Ht.
  - destruct (fst (consult b (engine g))) as [s|] eqn:Hr; [|discriminate].
    assert (Hs : s <> "") by (intros ->; discriminate).
    destruct (from_uci s) as [m|] eqn:Hp.
    + destruct (legal b m) eqn:Hl.
      * right. right. exists s, m. split; [now repeat split|].
        now apply engine_moves.
      * left. split; [right; now exists s, m|].
        now apply engine_illegal with s m.
    + right. left. exists s. split; [now repeat split|].
      now apply engine_unparseable with s.
  - left. split; [now left|]. now apply engine_silent.
Qed.

Lemma make_move_no_board (input : string) (g : ChessGame) (m : Move) :
  board g = None ->
  from_uci (lower (strip input)) = Some m ->
  make_move input g = Raised AttributeError g.
Proof.
  intros Hb Hp. unfold make_move, bind, the_board. now rewrite Hp, Hb.
Qed.

Lemma engine_turn_no_board (g : ChessGame) :
  board g = None -> _get_engine_move g = Raised AttributeError g.
Proof.
  intros Hb. unfold _get_engine_move, bind, the_board. now rewrite Hb.
Qed.

Lemma set_color_outcome (input : string) (g : ChessGame) :
  phase g = AwaitingColorChoice ->
  MoveOutcome g input (set_color input g).
Proof.
  intros Hph.
  destruct (in_list (lower (strip input)) ["black"; "white"]) eqn:Hin.
  - apply color_guard in Hin. destruct Hin as [Hc | Hc].
    + rewrite (set_color_black g input Hc). now apply engine_is_black.
    + rewrite (set_color_white g input Hc).
      destruct (board g) as [b|] eqn:Hb.
      * assert (Hb' : board (chosen WHITE g) = Some b) by exact Hb.
        destruct (engine_turn_cases (chosen WHITE g) b Hb')
          as [[Hf Hr] | [(s & Hg & Hr) | (s & m & Hpl & Hr)]];
          change (engine (chosen WHITE g)) with (engine g) in *;
          rewrite Hr.
        -- now apply white_engine_error.
        -- now apply white_engine_garbage with s.
        -- destruct Hpl as (Hs & Hne & Hp & Hl).
           rewrite (truthy_some s Hne).
           apply white_first_move; try assumption. now repeat split.
      * assert (Hb' : board (chosen WHITE g) = None) by exact Hb.
        rewrite (engine_turn_no_board _ Hb').
        now apply white_without_board.
  - assert (Hw : ~ names_color input "white").
    { intros Hc. assert (H : in_list (lower (strip input)) ["black"; "white"]
                             = true) by (apply color_guard; now right).
      congruence. }
    assert (Hk : ~ names_color input "black").
    { intros Hc. assert (H : in_list (lower (strip input)) ["black"; "white"]
                             = true) by (apply color_guard; now left).
      congruence. }
    unfold set_color. rewrite Hin. now apply invalid_color.
Qed.

Lemma make_move_outcome (input : string) (g : ChessGame) :
  phase g = InProgress ->
  MoveOutcome g input (make_move input g).
Proof.
  intros Hph.
  destruct (from_uci (lower (strip input))) as [m|] eqn:Hp.
  2:{ rewrite (make_move_unparsed input g Hp). now apply not_a_move. }
  destruct (board g) as [b|] eqn:Hb.
  2:{ rewrite (make_move_no_board input g m Hb Hp).
      now apply move_without_board with m. }
  destruct (legal b m) eqn:Hl.
  2:{ rewrite (make_move_not_legal input g b m Hb Hp Hl).
      now apply not_legal with b m. }
  destruct (terminal (push b m)) eqn:Ht.
  - assert (Hr : make_move input g
                 = Returned (human_ending (push b m))
                            (with_board (Some (push b m)) g)).
    { unfold human_ending.
      destruct (is_checkmate (push b m)) eqn:Hc.
      - now apply make_move_checkmate.
      - unfold terminal in Ht. rewrite Hc in Ht. cbn [orb] in Ht.
        now apply make_move_draw. }
    rewrite Hr. now apply human_ends_game.
  - rewrite (make_move_engine input g b m Hb Hp Hl Ht).
    assert (Hb' : board (with_board (Some (push b m)) g)
                  = Some (push b m)) by reflexivity.
    destruct (engine_turn_cases _ _ Hb')
      as [[Hf Hr] | [(s & Hg & Hr) | (s & m' & Hpl & Hr)]];
      change (engine (with_board (Some (push b m)) g)) with (engine g) in *;
      rewrite Hr.
    + now apply reply_engine_error.
    + now apply reply_engine_garbage with s.
    + destruct Hpl as (Hs & Hne & Hp' & Hl').
      rewrite (truthy_some s Hne). rewrite board_with_board.
      assert (Hout : MoveOutcome g input
                (Returned (reply_text s (push (push b m) m'))
                   (with_board (Some (push (push b m) m'))
                      (with_engine (snd (consult (push b m) (engine g)))
                         g)))).
      { apply reply_move; try assumption. now repeat split. }
      unfold reply_text in Hout. cbn [format].
      destruct (is_checkmate (push (push b m) m')); [exact Hout|].
      destruct (is_stalemate (push (push b m) m')
                || is_insufficient_material (push (push b m) m'));
        exact Hout.
Qed.

(** Every [/move] request ends in one of the outcomes of [MoveOutcome]. *)
Lemma move_outcome (body : string) (g : ChessGame) :
  MoveOutcome g body (move body g).
Proof.
  destruct (phase g) eqn:Hph.
  - rewrite (move_not_started body g Hph). now apply no_game.
  - rewrite (move_awaiting body g Hph), set_color_strip.
    now apply set_color_outcome.
  - rewrite (move_in_progress body g Hph), make_move_strip.
    now apply make_move_outcome.
  - now apply phase_never_finished in Hph.
Qed.

(** *** What a request leaves alone *)

(** X5.  The player's colour is written by a colour choice and by nothing
    else: [/start], and [/move] in any phase but [AwaitingColorChoice],
    leave [user_color] as it was -- so a colour chosen in an earlier game
    is still stored after [/start]. *)
Theorem color_is_written_by_choice_only (r : Request) (g : ChessGame) :
  r = POST_start \/ phase g <> AwaitingColorChoice ->
  user_color (state_of (handle r g)) = user_color g.
Proof.
  intros Hr. destruct r as [|body]; [reflexivity|].
  destruct Hr as [Hr | Hph]; [discriminate|].
  cbn [handle]. destruct (move_outcome body g); try reflexivity; congruence.
Qed.

(** X6.  A request asks the engine at most once: afterwards the engine is
    either as it was, or in the state one question leaves it in -- a
    question about the session's board, or about that board with one
    legal move pushed. *)
Theorem engine_asked_at_most_once (r : Request) (g : ChessGame) :
  engine (state_of (handle r g)) = engine g
  \/ exists b,
       (board g = Some b
        \/ exists b0 m, board g = Some b0 /\ legal b0 m = true
                        /\ b = push b0 m)
       /\ engine (state_of (handle r g)) = snd (consult b (engine g)).
Proof.
  destruct r as [|body]; [now left|].
  cbn [handle]. destruct (move_outcome body g); cbn [state_of];
    try (now left);
    try (right; exists b; split; [now left|reflexivity]);
    right; exists (push b m); (split; [right; now exists b, m|reflexivity]).
Qed.

(** *** Exceptions *)


(** X8.  When the engine, given White, answers a non-empty text that is
    no move, [set_color] raises [InvalidMoveError] after its three
    attribute writes: the colour is chosen and the game is in progress,
    with nobody having moved. *)
Theorem engine_garbage_in_set_color (g : ChessGame) (b : Board)
        (input s : string) :
  board g = Some b ->
  names_color input "white" ->
  engine_garbage b (engine g) s ->
  set_color input g
  = Raised InvalidMoveError
           (with_engine (snd (consult b (engine g))) (chosen WHITE g))
  /\ phase (state_of (set_color input g)) = InProgress
  /\ user_color (state_of (set_color input g)) = Some BLACK
  /\ board (state_of (set_color input g)) = Some b.
Proof.
  intros Hb Hc (Hs & Hne & Hp).
  assert (Hb' : board (chosen WHITE g) = Some b) by exact Hb.
  assert (H : set_color input g
              = Raised InvalidMoveError
                  (with_engine (snd (consult b (engine g)))
                     (chosen WHITE g))).
  { rewrite (set_color_white g input Hc).
    now rewrite (engine_unparseable (chosen WHITE g) b s Hb' Hs Hne Hp). }
  rewrite H. repeat split. exact Hb.
Qed.

(** X9.  When the engine answers a non-empty text that is no move after
    a legal human move that does not end the game, [make_move] raises
    [InvalidMoveError] with the human's move applied and no reply. *)
Theorem engine_garbage_in_make_move (g : ChessGame) (b : Board)
        (input s : string) (m : Move) :
  board g = Some b ->
  from_uci (lower (strip input)) = Some m ->
  legal b m = true ->
  terminal (push b m) = false ->
  engine_garbage (push b m) (engine g) s ->
  make_move input g
  = Raised InvalidMoveError
           (with_engine (snd (consult (push b m) (engine g)))
              (with_board (Some (push b m)) g))
  /\ board (state_of (make_move input g)) = Some (push b m)
  /\ phase (state_of (make_move input g)) = phase g.
Proof.
  intros Hb Hp Hl Ht (Hs & Hne & Hp').
  assert (Hb' : board (with_board (Some (push b m)) g) = Some (push b m))
    by reflexivity.
  assert (H : make_move input g
              = Raised InvalidMoveError
                  (with_engine (snd (consult (push b m) (engine g)))
                     (with_board (Some (push b m)) g))).
  { rewrite (make_move_engine input g b m Hb Hp Hl Ht).
    now rewrite (engine_unparseable _ _ s Hb' Hs Hne Hp'). }
  rewrite H. repeat split.
Qed.

(** X10.  Called on a session that has no board, [make_move] answers
    "Illegal move" to a text that is no move and raises [AttributeError]
    on one that is; [set_color] accepts "black" all the same, and raises
    [AttributeError] on "white" after marking the game as started. *)
Theorem methods_without_board (g : ChessGame) (input : string) :
  board g = None ->
  (from_uci (lower (strip input)) = None ->
     make_move input g = Returned "Illegal move" g)
  /\ (forall m, from_uci (lower (strip input)) = Some m ->
                make_move input g = Raised AttributeError g)
  /\ (names_color input "black" ->
      set_color input g
      = Returned "Engine is black. You are white. Make your move."
                 (chosen BLACK g))
  /\ (names_color input "white" ->
      set_color input g = Raised AttributeError (chosen WHITE g)
      /\ game_started (chosen WHITE g) = true).
Proof.
  intros Hb. split; [|split; [|split]].
  - apply make_move_unparsed.
  - intros m Hp. now apply make_move_no_board with m.
  - apply set_color_black.
  - intros Hc. split; [|reflexivity].
    rewrite (set_color_white g input Hc).
    assert (Hb' : board (chosen WHITE g) = None) by exact Hb.
    now rewrite (engine_turn_no_board _ Hb').
Qed.

(** *** Answers *)


(** X12.  A request body is read up to case and surrounding whitespace:
    two bodies that trim and lower-case to the same text have the same
    outcome in every session. *)
Theorem move_ignores_case_and_padding (a b : string) (g : ChessGame) :
  lower (strip a) = lower (strip b) ->
  move a g = move b g.
Proof.
  intros Hab. unfold move, bind, gets.
  destruct (waiting_for_color g).
  - unfold set_color. now rewrite !strip_idempotent, Hab.
  - destruct (negb (game_started g)); [reflexivity|].
    unfold make_move. now rewrite !strip_idempotent, Hab.
Qed.

(** *** Sequences of requests *)

Lemma handle_stays_started (r : Request) (g : ChessGame) :
  r = POST_start \/ phase g <> NotStarted ->
  phase (state_of (handle r g)) <> NotStarted.
Proof.
  intros Hr. destruct r as [|body]; [discriminate|].
  destruct Hr as [Hr | Hph]; [discriminate|].
  cbn [handle]. destruct (move_outcome body g); cbn [state_of];
    try congruence; try discriminate;
    change (phase g <> NotStarted); congruence.
Qed.

(** X13.  Once [/start] was handled, no request brings the session back
    to [NotStarted]: whatever happened in between, a later [/move] is
    given to [set_color] or to [make_move], never dismissed as having no
    game. *)
Theorem started_stays_started (rs : list Request) (g : ChessGame)
        (body : string) :
  phase (after (POST_start :: rs) g) <> NotStarted
  /\ (move body (after (POST_start :: rs) g)
      = set_color (strip body) (after (POST_start :: rs) g)
      \/ move body (after (POST_start :: rs) g)
         = make_move (strip body) (after (POST_start :: rs) g)).
Proof.
  assert (H : forall rs g, phase g <> NotStarted ->
                           phase (after rs g) <> NotStarted).
  { clear. induction rs as [|r rs IH]; intros g Hg; [exact Hg|].
    cbn. apply IH. apply handle_stays_started. now right. }
  assert (Hph : phase (after (POST_start :: rs) g) <> NotStarted).
  { cbn. apply H. discriminate. }
  split; [exact Hph|].
  destruct (phase (after (POST_start :: rs) g)) eqn:Hp.
  - congruence.
  - left. now apply move_awaiting.
  - right. now apply move_in_progress.
  - now apply phase_never_finished in Hp.
Qed.

(** X14.  Before the first [/start], [/move] requests change nothing:
    each is answered "No game in progress. Start a game with /start",
    and after any number of them the session is the one the program
    created, its engine never asked. *)
Theorem moves_before_start_change_nothing (bodies : list string)
        (e : Stockfish) (body : string) :
  after (map POST_move bodies) (__init__ e) = __init__ e
  /\ move body (after (map POST_move bodies) (__init__ e))
     = Returned "No game in progress. Start a game with /start"
                (__init__ e).
Proof.
  assert (H : after (map POST_move bodies) (__init__ e) = __init__ e).
  { induction bodies as [|b bodies IH]; [reflexivity|]. exact IH. }
  split; [exact H|]. now rewrite H.
Qed.

(** What one request does to the board: [/start] sets the initial
    position; [/move] leaves the board, or pushes one legal move, or
    two. *)
Lemma handle_board (r : Request) (g : ChessGame) :
  board (state_of (handle r g)) = Some initial
  \/ board (state_of (handle r g)) = board g
  \/ exists b m,
       board g = Some b /\ legal b m = true
       /\ (board (state_of (handle r g)) = Some (push b m)
           \/ exists m', legal (push b m) m' = true
                         /\ board (state_of (handle r g))
                            = Some (push (push b m) m')).
Proof.
  destruct r as [|body]; [now left|].
  cbn [handle].
  destruct (move_outcome body g) as
    [ | | | | | | b s m _ _ Hb Hpl | | | | b m _ _ Hb Hl _
      | b m _ _ Hb Hl _ _ | b m s _ _ Hb Hl _ _
      | b m s m' _ _ Hb Hl _ Hpl ];
    cbn [state_of]; try (right; left; reflexivity).
  - right. right. destruct Hpl as (_ & _ & _ & Hl). exists b, m.
    split; [exact Hb|split; [exact Hl|now left]].
  - right. right. exists b, m. split; [exact Hb|split; [exact Hl|now left]].
  - right. right. exists b, m. split; [exact Hb|split; [exact Hl|now left]].
  - right. right. exists b, m. split; [exact Hb|split; [exact Hl|now left]].
  - right. right. destruct Hpl as (_ & _ & _ & Hl'). exists b, m.
    split; [exact Hb|split; [exact Hl|right; now exists m']].
Qed.

(** X15.  The session never holds a position that was not played: from
    the session the program creates, after any requests, the board, when
    there is one, is reached from the initial position by legal moves
    only -- the human's and the engine's alike. *)
Theorem only_legal_positions (rs : list Request) (e : Stockfish)
        (b : Board) :
  board (after rs (__init__ e)) = Some b ->
  played_legally initial b.
Proof.
  assert (H : forall rs g,
             (forall b, board g = Some b -> played_legally initial b) ->
             forall b, board (after rs g) = Some b ->
                       played_legally initial b).
  { clear. induction rs as [|r rs IH]; intros g Hg; [exact Hg|].
    cbn. apply IH. intros b Hb.
    destruct (handle_board r g)
      as [H | [H | (b0 & m & Hb0 & Hl & [H | (m' & Hl' & H)])]];
      rewrite H in Hb.
    - injection Hb as <-. constructor.
    - now apply Hg.
    - injection Hb as <-. constructor; [now apply Hg|exact Hl].
    - injection Hb as <-.
      constructor; [constructor; [now apply Hg|exact Hl]|exact Hl']. }
  apply H. discriminate.
Qed.

(** X16.  Turns alternate while the engine answers: in rules where a
    push hands the turn over, if it is the human's turn and the human's
    legal move does not end the game and the engine answers a legal
    move, then both moves are on the board and it is the human's turn
    again. *)
Theorem human_to_move_again (g : ChessGame) (b : Board) (input : string)
        (m : Move) (s : string) (m' : Move) :
  (forall b m, legal b m = true -> turn (push b m) = negb (turn b)) ->
  board g = Some b ->
  user_color g = Some (turn b) ->
  from_uci (lower (strip input)) = Some m ->
  legal b m = true ->
  terminal (push b m) = false ->
  engine_plays (push b m) (engine g) s m' ->
  board (state_of (make_move input g)) = Some (push (push b m) m')
  /\ user_color (state_of (make_move input g))
     = Some (turn (push (push b m) m')).
Proof.
  intros Hturn Hb Hu Hp Hl Ht (Hs & Hne & Hp' & Hl').
  assert (Hb' : board (with_board (Some (push b m)) g) = Some (push b m))
    by reflexivity.
  rewrite (make_move_engine_state input g b m Hb Hp Hl Ht).
  rewrite (engine_moves _ _ s m' Hb' Hs Hne Hp' Hl'). cbn [state_of].
  split; [reflexivity|].
  rewrite (Hturn _ _ Hl'), (Hturn _ _ Hl), negb_involutive. exact Hu.
Qed.

End Outcome_Facts.

(** * Construction *)

Section Construction_Facts.

Context {R : Rules} {E : Selector} {host : Host}.

Lemma find_from_first (pre : list string) (p : string) (post : list string) :
  (forall q, In q pre -> isfile q || access_X_OK q = false) ->
  isfile p || access_X_OK p = true ->
  find_from (pre ++ p :: post)%list = Some p.
Proof.
  induction pre as [|q pre IH]; intros Hpre Hp; cbn.
  - now rewrite Hp.
  - rewrite (Hpre q (or_introl eq_refl)). apply IH; [|exact Hp].
    intros q' Hq'. apply Hpre. now right.
Qed.

Lemma find_from_none (paths : list string) :
  (forall q, In q paths -> isfile q || access_X_OK q = false) ->
  find_from paths = which "stockfish".
Proof.
  induction paths as [|q paths IH]; intros Hall; cbn; [reflexivity|].
  rewrite (Hall q (or_introl eq_refl)). apply IH.
  intros q' Hq'. apply Hall. now right.
Qed.


(** X17.  [_find_stockfish] returns the first of its four candidate
    paths that is a file or can be executed -- a path that is no file but
    can be executed counts -- whatever the later candidates and the
    search path hold. *)
Theorem find_stockfish_takes_first (pre : list string) (p : string)
        (post : list string) :
  possible_paths = (pre ++ p :: post)%list ->
  (forall q, In q pre -> isfile q || access_X_OK q = false) ->
  isfile p || access_X_OK p = true ->
  _find_stockfish = Some p.
Proof.
  intros Hpaths Hpre Hp. unfold _find_stockfish. rewrite Hpaths.
  now apply find_from_first.
Qed.

(** X18.  When none of the four candidate paths is a file or can be
    executed, [_find_stockfish] returns what [shutil.which("stockfish")]
    returns, [None] included. *)
Theorem find_stockfish_falls_back :
  (forall q, In q possible_paths -> isfile q || access_X_OK q = false) ->
  _find_stockfish = which "stockfish".
Proof. apply find_from_none. Qed.


End Construction_Facts.

(** ** More recorded games *)

(** X5 on a real board: the colour of the finished fool's mate game is
    still stored after [/start]. *)
Lemma stale_color_after_start :
  user_color (state_of (handle POST_start Games.mated)) = Some BLACK
  /\ phase (state_of (handle POST_start Games.mated)) = AwaitingColorChoice.
Proof.
  split; [|reflexivity].
  rewrite (color_is_written_by_choice_only POST_start Games.mated
             (or_introl eq_refl)).
  replay.
Defined.


(** X8 on a real board. *)
Lemma xyz_in_set_color :
  set_color "white" (Games.opened [Some "xyz"])
  = Raised InvalidMoveError
      (with_engine
         (snd (consult Chess.initial (engine (Games.opened [Some "xyz"]))))
         (chosen WHITE (Games.opened [Some "xyz"])))
  /\ phase (state_of (set_color "white" (Games.opened [Some "xyz"])))
     = InProgress
  /\ user_color (state_of (set_color "white" (Games.opened [Some "xyz"])))
     = Some BLACK
  /\ board (state_of (set_color "white" (Games.opened [Some "xyz"])))
     = Some Chess.initial.
Proof.
  apply (engine_garbage_in_set_color (Games.opened [Some "xyz"])
           Chess.initial "white" "xyz").
  - reflexivity.
  - reflexivity.
  - unfold engine_garbage.
    split_all; [reflexivity|discriminate|reflexivity].
Defined.

(** X9 on a real board: the human plays e2e4 and the engine answers
    "xyz". *)
Lemma xyz_in_make_move :
  board (state_of (make_move "e2e4"
           (after [POST_move "black"] (Games.opened [Some "xyz"]))))
  = Some (Games.played ["e2e4"])
  /\ answer (make_move "e2e4"
               (after [POST_move "black"] (Games.opened [Some "xyz"])))
     = inr InvalidMoveError.
Proof.
  assert (Ht : terminal (push Chess.initial (Games.uci "e2e4")) = false)
    by (vm_compute; reflexivity).
  assert (Hb0 : board (after [POST_move "black"] (Games.opened [Some "xyz"]))
                = Some Chess.initial) by (vm_compute; reflexivity).
  assert (Hl : legal Chess.initial (Games.uci "e2e4") = true)
    by (vm_compute; reflexivity).
  assert (Hs : fst (consult (push Chess.initial (Games.uci "e2e4"))
                      (engine (after [POST_move "black"]
                                     (Games.opened [Some "xyz"]))))
               = Some "xyz") by (vm_compute; reflexivity).
  assert (Hg : engine_garbage (push Chess.initial (Games.uci "e2e4"))
                 (engine (after [POST_move "black"]
                                (Games.opened [Some "xyz"]))) "xyz").
  { unfold engine_garbage. split_all; [exact Hs|discriminate|reflexivity]. }
  destruct (engine_garbage_in_make_move
              (after [POST_move "black"] (Games.opened [Some "xyz"]))
              Chess.initial "e2e4" "xyz" (Games.uci "e2e4")
              Hb0 eq_refl Hl Ht Hg)
    as (Hr & Hb & _).
  split; [exact Hb|]. now rewrite Hr.
Defined.

(** X10 on the session the program creates, before any [/start]. *)
Lemma methods_on_a_fresh_session :
  make_move "e2e4" (Games.fresh []) = Raised AttributeError (Games.fresh [])
  /\ make_move "hello" (Games.fresh [])
     = Returned "Illegal move" (Games.fresh [])
  /\ set_color "white" (Games.fresh [])
     = Raised AttributeError (chosen WHITE (Games.fresh [])).
Proof.
  destruct (methods_without_board (Games.fresh []) "e2e4" eq_refl)
    as (_ & Hm & _ & _).
  destruct (methods_without_board (Games.fresh []) "hello" eq_refl)
    as (Hi & _ & _ & _).
  destruct (methods_without_board (Games.fresh []) "white" eq_refl)
    as (_ & _ & _ & Hw).
  split; [exact (Hm (Games.uci "e2e4") eq_refl)|].
  split; [exact (Hi eq_refl)|].
  exact (proj1 (Hw eq_refl)).
Defined.


(** X12 on a real board: " E2E4 " is read as "e2e4". *)
Lemma padded_upper_case_move :
  move " E2E4 " (after [POST_move "black"] (Games.opened [Some "e7e5"]))
  = move "e2e4" (after [POST_move "black"] (Games.opened [Some "e7e5"])).
Proof.
  apply move_ignores_case_and_padding. vm_compute. reflexivity.
Defined.

(** X15 on a real board: the mated position was played legally. *)
Lemma fools_mate_was_played_legally :
  played_legally Chess.initial
    (Games.played ["f2f3"; "e7e5"; "g2g4"; "d8h4"]).
Proof.
  apply (@only_legal_positions ChessRules ScriptedEngine
           [POST_start; POST_move "white"; POST_move "e7e5";
            POST_move "d8h4"]
           (Scripted.launch [Some "f2f3"; Some "g2g4"])).
  vm_compute. reflexivity.
Defined.

(** X16 on a real board: after 1. f3 the human, Black, plays e5 and the
    engine answers g4; it is Black's turn again. *)
Lemma black_to_move_again :
  board (state_of (make_move "e7e5"
           (after [POST_move "white"]
                  (Games.opened [Some "f2f3"; Some "g2g4"]))))
  = Some (push (push (Games.played ["f2f3"]) (Games.uci "e7e5"))
               (Games.uci "g2g4"))
  /\ user_color (state_of (make_move "e7e5"
                   (after [POST_move "white"]
                          (Games.opened [Some "f2f3"; Some "g2g4"]))))
     = Some (turn (push (push (Games.played ["f2f3"]) (Games.uci "e7e5"))
                        (Games.uci "g2g4"))).
Proof.
  assert (Ht : terminal (push (Games.played ["f2f3"]) (Games.uci "e7e5"))
               = false) by (vm_compute; reflexivity).
  assert (Hl : legal (push (Games.played ["f2f3"]) (Games.uci "e7e5"))
                     (Games.uci "g2g4") = true) by (vm_compute; reflexivity).
  apply (human_to_move_again
           (after [POST_move "white"]
                  (Games.opened [Some "f2f3"; Some "g2g4"]))
           (Games.played ["f2f3"]) "e7e5" (Games.uci "e7e5")
           "g2g4" (Games.uci "g2g4")
           push_flips_turn eq_refl eq_refl eq_refl eq_refl Ht).
  unfold engine_plays.
  split_all; [reflexivity|discriminate|reflexivity|exact Hl].
Defined.

(** X17 on a host with the binary in [/usr/bin] and [/usr/local/bin]:
    [/usr/bin/stockfish] is found, [/usr/games] being empty. *)
Lemma usr_bin_comes_first :
  @_find_stockfish ScriptedEngine Hosts.usr_bin = Some "/usr/bin/stockfish".
Proof.
  apply (@find_stockfish_takes_first ScriptedEngine Hosts.usr_bin
           ["/usr/games/stockfish"] "/usr/bin/stockfish"
           ["/usr/local/bin/stockfish"; "stockfish"]).
  - reflexivity.
  - intros q [<- | []]. reflexivity.
  - reflexivity.
Defined.

(** X18 on a host with the binary on the search path only. *)
Lemma search_path_is_the_fallback :
  @_find_stockfish ScriptedEngine Hosts.on_path = Some "/opt/bin/stockfish".
Proof.
  apply (@find_stockfish_falls_back ScriptedEngine Hosts.on_path).
  intros q _. reflexivity.
Defined.
